(** * saltext.azurerm.modules.azurerm_compute

    A shallow embedding of the Azure Resource Manager Compute execution
    module.  Every function of the module acquires a client for the
    "compute" provider, forwards its arguments to one SDK call, reshapes
    the answer into plain data and turns SDK exceptions into an error
    mapping or a boolean flag.

    The SDK, the host runtime's function table ([__salt__]) and the shared
    helpers of [saltext.azurerm.utils.azurerm] are collaborators of the
    module: they are gathered in an environment record [Env] whose fields
    answer each call with a value or an exception.  A module function is a
    computation in a small exception-and-trace monad: it yields a returned
    value or a propagating exception, together with the chronological list
    of the calls it made on its collaborators. *)

From Stdlib Require Import List String ZArith Bool DecimalString.
Import ListNotations.
Open Scope string_scope.
Open Scope list_scope.
Set Warnings "-register-all".

(** ** Python data *)

(** Plain data as the module sees it: the result of [as_dict()], keyword
    argument values, names. *)
Inductive value : Type :=
| VNone
| VBool (b : bool)
| VInt (z : Z)
| VStr (s : string)
| VList (l : list value)
| VDict (d : list (value * value)).

(** A Python dict, in insertion order. *)
Definition dict : Type := list (value * value).

(** [**kwargs]: the keys of keyword arguments are always strings. *)
Definition kwargs : Type := list (string * value).

(** Hashable values and what they are equal to as dictionary keys
    ([True == 1] and [False == 0] in Python). *)
Inductive hkey : Type :=
| HNone
| HInt (z : Z)
| HStr (s : string).

Definition hkey_eqb (a b : hkey) : bool :=
  match a, b with
  | HNone, HNone => true
  | HInt x, HInt y => Z.eqb x y
  | HStr x, HStr y => String.eqb x y
  | _, _ => false
  end.

(** [None] for the unhashable values (list, dict). *)
Definition py_hash (v : value) : option hkey :=
  match v with
  | VNone => Some HNone
  | VBool b => Some (HInt (if b then 1 else 0))
  | VInt z => Some (HInt z)
  | VStr s => Some (HStr s)
  | VList _ => None
  | VDict _ => None
  end.

Definition key_is (h : hkey) (k : value) : bool :=
  match py_hash k with
  | Some h' => hkey_eqb h' h
  | None => false
  end.

Fixpoint dict_lookup (h : hkey) (d : dict) : option value :=
  match d with
  | [] => None
  | (k, v) :: d' => if key_is h k then Some v else dict_lookup h d'
  end.

(** [d[k] = v] on a dict: an existing entry keeps its place and its key
    object, a new one goes last. *)
Fixpoint dict_insert (h : hkey) (k v : value) (d : dict) : dict :=
  match d with
  | [] => [(k, v)]
  | (k', v') :: d' =>
      if key_is h k' then (k', v) :: d' else (k', v') :: dict_insert h k v d'
  end.

(** ["s" in d] for a string literal. *)
Definition dict_mem (s : string) (d : dict) : bool :=
  match dict_lookup (HStr s) d with
  | Some _ => true
  | None => false
  end.

Fixpoint kw_get (s : string) (kw : kwargs) : option value :=
  match kw with
  | [] => None
  | (k, v) :: kw' => if String.eqb k s then Some v else kw_get s kw'
  end.

Definition kw_mem (s : string) (kw : kwargs) : bool :=
  match kw_get s kw with
  | Some _ => true
  | None => false
  end.

(** [kwargs[s] = v]. *)
Fixpoint kw_set (s : string) (v : value) (kw : kwargs) : kwargs :=
  match kw with
  | [] => [(s, v)]
  | (k, v') :: kw' =>
      if String.eqb k s then (k, v) :: kw' else (k, v') :: kw_set s v kw'
  end.

(** ** Exceptions *)

(** The exception classes the module names, the ones its helpers raise, and
    the subclasses of [HttpResponseError] that [azure.core.exceptions]
    declares.  [OtherException] stands for a class unrelated to all of them. *)
Inductive exc_class : Type :=
| HttpResponseError
| ResourceNotFoundError
| ResourceExistsError
| ClientAuthenticationError
| SerializationError
| TypeError
| KeyError
| AttributeError
| SaltSystemExit
| SaltInvocationError
| OtherException (name : string).

(** The base class of a class, among the classes above, as
    [azure.core.exceptions] declares it: [ResourceNotFoundError],
    [ResourceExistsError] and [ClientAuthenticationError] derive from
    [HttpResponseError]. *)
Definition exc_base (c : exc_class) : option exc_class :=
  match c with
  | ResourceNotFoundError => Some HttpResponseError
  | ResourceExistsError => Some HttpResponseError
  | ClientAuthenticationError => Some HttpResponseError
  | _ => None
  end.

Definition exc_class_eqb (a b : exc_class) : bool :=
  match a, b with
  | HttpResponseError, HttpResponseError => true
  | ResourceNotFoundError, ResourceNotFoundError => true
  | ResourceExistsError, ResourceExistsError => true
  | ClientAuthenticationError, ClientAuthenticationError => true
  | SerializationError, SerializationError => true
  | TypeError, TypeError => true
  | KeyError, KeyError => true
  | AttributeError, AttributeError => true
  | SaltSystemExit, SaltSystemExit => true
  | SaltInvocationError, SaltInvocationError => true
  | OtherException x, OtherException y => String.eqb x y
  | _, _ => false
  end.

Definition issubclass (c d : exc_class) : bool :=
  exc_class_eqb c d ||
  match exc_base c with
  | Some b => exc_class_eqb b d
  | None => false
  end.

(** An exception object: its class and [str(exc)]. *)
Record exc : Type := mkExc { exc_type : exc_class; exc_str : string }.

Inductive outcome (A : Type) : Type :=
| Return (a : A)
| Raise (e : exc).
Arguments Return {A} a.
Arguments Raise {A} e.

(** [d["s"]] for a string literal; [str(KeyError("s"))] is the repr of the key. *)
Definition getitem (d : dict) (s : string) : outcome value :=
  match dict_lookup (HStr s) d with
  | Some v => Return v
  | None => Raise (mkExc KeyError ("'" ++ s ++ "'")%string)
  end.

(** [d[k] = v] for any key object. *)
Definition setitem (d : dict) (k v : value) : outcome dict :=
  match py_hash k with
  | Some h => Return (dict_insert h k v d)
  | None =>
      Raise (mkExc TypeError
               match k with
               | VList _ => "unhashable type: 'list'"
               | _ => "unhashable type: 'dict'"
               end)
  end.

(** ** The SDK's objects *)

(** A model object of the SDK, seen through [as_dict()]. *)
Record sdk_model : Type := mkModel { as_dict : dict }.

(** The poller of a long-running operation: [wait()] and [result()].  What
    [result()] returns is a model, or [None] for an operation that has no
    result to show. *)
Record lro_poller : Type := mkPoller {
  wait : outcome unit;
  result : outcome (option sdk_model)
}.

(** [vm_result.as_dict()] on what [result()] returned: [None] has no such
    attribute. *)
Definition result_as_dict (vm_result : option sdk_model) : outcome dict :=
  match vm_result with
  | Some model => Return (as_dict model)
  | None =>
      Raise (mkExc AttributeError "'NoneType' object has no attribute 'as_dict'")
  end.

(** A paged object: the items it yields and the exception, if any, that
    fetching a page raises after them. *)
Record paged : Type := mkPaged {
  paged_items : list sdk_model;
  paged_error : option exc
}.

(** [VirtualMachineCaptureParameters(vhd_prefix=.., destination_container_name=..,
    overwrite_vhds=..)]. *)
Record VirtualMachineCaptureParameters : Type := mkCapture {
  vhd_prefix : value;
  destination_container_name : value;
  overwrite_vhds : value
}.

Module AvailabilitySetsOperations.
(** [compconn.availability_sets]: arguments in the order
    resource_group_name, availability_set_name, parameters. *)
Record t : Type := mk {
  create_or_update : value -> value -> sdk_model -> outcome sdk_model;
  delete : value -> value -> outcome unit;
  get : value -> value -> outcome sdk_model;
  list : value -> outcome paged;
  list_available_sizes : value -> value -> outcome paged
}.
End AvailabilitySetsOperations.

Module VirtualMachinesOperations.
(** [compconn.virtual_machines]: arguments in the order
    resource_group_name, vm_name, then parameters or expand. *)
Record t : Type := mk {
  begin_capture :
    value -> value -> VirtualMachineCaptureParameters -> outcome lro_poller;
  get : value -> value -> value -> outcome sdk_model;
  begin_convert_to_managed_disks : value -> value -> outcome lro_poller;
  begin_deallocate : value -> value -> outcome lro_poller;
  generalize : value -> value -> outcome unit;
  list : value -> outcome paged;
  list_all : outcome paged;
  list_available_sizes : value -> value -> outcome paged;
  begin_power_off : value -> value -> outcome lro_poller;
  begin_restart : value -> value -> outcome lro_poller;
  begin_start : value -> value -> outcome lro_poller;
  begin_redeploy : value -> value -> outcome lro_poller
}.
End VirtualMachinesOperations.

(** The client object that [get_client("compute", ..)] returns. *)
Record ComputeManagementClient : Type := mkClient {
  availability_sets : AvailabilitySetsOperations.t;
  virtual_machines : VirtualMachinesOperations.t
}.

(** The methods of the SDK client the module calls. *)
Inductive sdk_op : Type :=
| AS_create_or_update
| AS_delete
| AS_get
| AS_list
| AS_list_available_sizes
| VM_begin_capture
| VM_get
| VM_begin_convert_to_managed_disks
| VM_begin_deallocate
| VM_generalize
| VM_list
| VM_list_all
| VM_list_available_sizes
| VM_begin_power_off
| VM_begin_restart
| VM_begin_start
| VM_begin_redeploy.

(** ** Calls on the collaborators *)

(** What a call answered: nothing to report, or the exception it raised. *)
Definition raised {A : Type} (o : outcome A) : option exc :=
  match o with
  | Return _ => None
  | Raise e => Some e
  end.

(** One entry per call the module makes outside itself, with the arguments
    it passed and the answer it got. *)
Inductive event : Type :=
| EvResourceGroupGet (resource_group : value) (kw : kwargs) (out : outcome dict)
| EvVirtualMachineGet (name resource_group : value) (kw : kwargs)
    (out : outcome dict)
| EvGetClient (client_type : string) (kw : kwargs) (exn : option exc)
| EvCreateObjectModel (module_name object_name : string) (kw : kwargs)
    (out : outcome sdk_model)
| EvSdk (op : sdk_op) (args : list (string * value)) (exn : option exc)
| EvWait (op : sdk_op) (exn : option exc)
| EvResult (op : sdk_op) (exn : option exc)
| EvPagedObjectToList (op : sdk_op) (out : outcome (list dict))
| EvLogCloudError (client : string) (message : string) (kw : kwargs)
| EvLogError (message : string).

(** The collaborators of the module: what each of them answers to a call. *)
Record Env : Type := mkEnv {
  (** [__salt__["azurerm_resource.resource_group_get"](resource_group, **kwargs)] *)
  resource_group_get_answer : value -> kwargs -> outcome dict;
  (** [__salt__["azurerm_compute.virtual_machine_get"](name=.., resource_group=.., **kwargs)] *)
  virtual_machine_get_answer : value -> value -> kwargs -> outcome dict;
  (** [saltext.azurerm.utils.azurerm.get_client(client_type, **kwargs)] *)
  get_client_answer : string -> kwargs -> outcome ComputeManagementClient;
  (** [saltext.azurerm.utils.azurerm.create_object_model(module_name, object_name, **kwargs)] *)
  create_object_model_answer : string -> string -> kwargs -> outcome sdk_model;
  (** [str(v)] for a list or a dict. *)
  container_str : value -> string
}.

(** ** The monad of module functions *)

Definition M (A : Type) : Type := (outcome A * list event)%type.

Definition ret {A : Type} (a : A) : M A := (Return a, []).

Definition bind {A B : Type} (m : M A) (f : A -> M B) : M B :=
  match m with
  | (Return a, t1) => let (r, t2) := f a in (r, t1 ++ t2)
  | (Raise e, t1) => (Raise e, t1)
  end.

(** A computation without calls outside the module. *)
Definition pure {A : Type} (o : outcome A) : M A := (o, []).

(** A call outside the module: its answer, recorded. *)
Definition call {A : Type} (o : outcome A) (ev : event) : M A := (o, [ev]).

Notation "x <- m ;; k" := (bind m (fun x => k))
  (at level 61, m at next level, right associativity).
Notation "m ;;; k" := (bind m (fun _ => k))
  (at level 61, right associativity).

(** [except (c1, c2, ..) as exc: handler]. *)
Definition handler (A : Type) : Type := (list exc_class * (exc -> M A))%type.

Definition catches {A : Type} (e : exc) (h : handler A) : bool :=
  existsb (issubclass (exc_type e)) (fst h).

(** [try: body except ..: ..]: the first clause whose classes match handles
    the exception, and an exception no clause matches propagates. *)
Definition try_except {A : Type} (body : M A) (handlers : list (handler A))
  : M A :=
  match body with
  | (Return a, t) => (Return a, t)
  | (Raise e, t) =>
      match find (catches e) handlers with
      | Some h => let (r, t2) := snd h e in (r, t ++ t2)
      | None => (Raise e, t)
      end
  end.

Definition returned {A : Type} (m : M A) : outcome A := fst m.
Definition trace {A : Type} (m : M A) : list event := snd m.

(** ** The module *)

Definition error_mapping (message : string) : value :=
  VDict [(VStr "error", VStr message)].

Section Compute.

Variable E : Env.

(** [str(v)]. *)
Definition py_str (v : value) : string :=
  match v with
  | VStr s => s
  | VNone => "None"
  | VBool true => "True"
  | VBool false => "False"
  | VInt z => NilZero.string_of_int (Z.to_int z)
  | _ => container_str E v
  end.

(** [__salt__["azurerm_resource.resource_group_get"]], a function of the
    host runtime's table. *)
Definition salt_resource_group_get (resource_group : value) (kw : kwargs)
  : M dict :=
  let out := resource_group_get_answer E resource_group kw in
  call out (EvResourceGroupGet resource_group kw out).

(** [__salt__["azurerm_compute.virtual_machine_get"]], a function of the
    host runtime's table. *)
Definition salt_virtual_machine_get (name resource_group : value) (kw : kwargs)
  : M dict :=
  let out := virtual_machine_get_answer E name resource_group kw in
  call out (EvVirtualMachineGet name resource_group kw out).

(** Modelled from the spec: [saltext.azurerm.utils.azurerm.get_client], the
    client factory, is not among the sources.  Given a provider name and
    the authentication keyword arguments it returns a client object or
    raises on an unrecoverable configuration error. *)
Definition get_client (client_type : string) (kw : kwargs)
  : M ComputeManagementClient :=
  let out := get_client_answer E client_type kw in
  call out (EvGetClient client_type kw (raised out)).

(** Modelled from the spec: [saltext.azurerm.utils.azurerm.create_object_model],
    the object-model construction, is not among the sources.  It builds a
    request object of the SDK from keyword arguments or raises. *)
Definition create_object_model (module_name object_name : string) (kw : kwargs)
  : M sdk_model :=
  let out := create_object_model_answer E module_name object_name kw in
  call out (EvCreateObjectModel module_name object_name kw out).

(** Modelled from the spec: [saltext.azurerm.utils.azurerm.log_cloud_error],
    the shared cloud-error logger, is not among the sources.  It logs the
    message for the named client and returns nothing. *)
Definition log_cloud_error (client message : string) (kw : kwargs) : M unit :=
  call (Return tt) (EvLogCloudError client message kw).

(** Modelled from the spec: [saltext.azurerm.utils.azurerm.paged_object_to_list],
    the pagination flattening, is not among the sources.  It drains the
    paged object into the list of the [as_dict()] forms of its items; an
    exception raised while a page is fetched comes out of it. *)
Definition paged_object_to_list (op : sdk_op) (p : paged) : M (list dict) :=
  let out :=
    match paged_error p with
    | None => Return (map as_dict (paged_items p))
    | Some e => Raise e
    end in
  call out (EvPagedObjectToList op out).

(** [log.error(message)]. *)
Definition log_error (message : string) : M unit :=
  call (Return tt) (EvLogError message).

(** A method call on the SDK client. *)
Definition sdk {A : Type} (op : sdk_op) (args : list (string * value))
  (out : outcome A) : M A :=
  call out (EvSdk op args (raised out)).

(** [except (classes) as exc: log_cloud_error(client, str(exc), **kwargs);
    result = {"error": str(exc)}]. *)
Definition report (classes : list exc_class) (client : string) (kw : kwargs)
  : handler value :=
  (classes,
   fun exc => log_cloud_error client (exc_str exc) kw ;;; ret (error_mapping (exc_str exc))).

(** [except HttpResponseError as exc: log_cloud_error(client, str(exc), **kwargs)],
    with [result] left at [False]. *)
Definition report_flag (client : string) (kw : kwargs) : handler value :=
  ([HttpResponseError],
   fun exc => log_cloud_error client (exc_str exc) kw ;;; ret (VBool false)).

(** [vm.wait(); vm_result = vm.result(); result = vm_result.as_dict()]. *)
Definition wait_result (op : sdk_op) (vm : lro_poller) : M value :=
  call (wait vm) (EvWait op (raised (wait vm))) ;;;
  vm_result <- call (result vm) (EvResult op (raised (result vm))) ;;
  d <- pure (result_as_dict vm_result) ;;
  ret (VDict d).

(** [for item in items: result[item["name"]] = item]; the loop calls nothing
    outside the module. *)
Fixpoint key_by_name (items : list dict) (acc : dict) : outcome dict :=
  match items with
  | [] => Return acc
  | item :: rest =>
      match getitem item "name" with
      | Raise e => Raise e
      | Return name =>
          match setitem acc name (VDict item) with
          | Raise e => Raise e
          | Return acc' => key_by_name rest acc'
          end
      end
  end.

(** The loop of lines 101-106: [vm_list] grows by one [{"id": ..}] object per
    name whose lookup has no "error" key. *)
Fixpoint resolve_vm_names (names : list value) (resource_group : value)
  (kw : kwargs) (vm_list : list value) : M (list value) :=
  match names with
  | [] => ret vm_list
  | vm_name :: rest =>
      vm_instance <- salt_virtual_machine_get vm_name resource_group kw ;;
      vm_list' <-
        (if negb (dict_mem "error" vm_instance) then
           id <- pure (getitem vm_instance "id") ;;
           ret (vm_list ++ [VDict [(VStr "id", VStr (py_str id))]])
         else ret vm_list) ;;
      resolve_vm_names rest resource_group kw vm_list'
  end.

(** Lines 98-107 of [availability_set_create_or_update]: a list under
    "virtual_machines" is replaced by the list of the resolved ids; the
    names are looked up with the keyword arguments as they are before the
    replacement. *)
Definition link_virtual_machines (resource_group : value) (kw : kwargs)
  : M kwargs :=
  match kw_get "virtual_machines" kw with
  | Some (VList names) =>
      vm_list <- resolve_vm_names names resource_group kw [] ;;
      ret (kw_set "virtual_machines" (VList vm_list) kw)
  | _ => ret kw
  end.

(** Lines 109-131 of [availability_set_create_or_update]: the request object
    is built, with an early return when that fails, and sent. *)
Definition build_and_send (name resource_group : value)
  (compconn : ComputeManagementClient) (kw : kwargs) : M value :=
  built <-
    try_except
      (setmodel <- create_object_model "compute" "AvailabilitySet" kw ;;
       ret (inl setmodel))
      [([TypeError],
        fun exc =>
          ret (inr (error_mapping
                      ("The object model could not be built. (" ++ exc_str exc ++ ")")%string)))] ;;
  match built with
  | inr early => ret early
  | inl setmodel =>
      try_except
        (av_set <-
           sdk AS_create_or_update
             [("resource_group_name", resource_group);
              ("availability_set_name", name);
              ("parameters", VDict (as_dict setmodel))]
             (AvailabilitySetsOperations.create_or_update
                (availability_sets compconn) resource_group name setmodel) ;;
         ret (VDict (as_dict av_set)))
        [report [HttpResponseError] "compute" kw;
         ([SerializationError],
          fun exc =>
            ret (error_mapping
                   ("The object model could not be parsed. (" ++ exc_str exc ++ ")")%string))]
  end.

(** Lines 96-131 of [availability_set_create_or_update]: what the function
    does once [kwargs] has a "location". *)
Definition create_or_update_located (name resource_group : value) (kw : kwargs)
  : M value :=
  compconn <- get_client "compute" kw ;;
  kw <- link_virtual_machines resource_group kw ;;
  build_and_send name resource_group compconn kw.

Definition availability_set_create_or_update (name resource_group : value)
  (kw : kwargs) : M value :=
  if negb (kw_mem "location" kw) then
    rg_props <- salt_resource_group_get resource_group kw ;;
    if dict_mem "error" rg_props then
      log_error "Unable to determine location from resource group specified." ;;;
      ret (VBool false)
    else
      location <- pure (getitem rg_props "location") ;;
      create_or_update_located name resource_group (kw_set "location" location kw)
  else create_or_update_located name resource_group kw.

Definition availability_set_delete (name resource_group : value) (kw : kwargs)
  : M value :=
  compconn <- get_client "compute" kw ;;
  try_except
    (sdk AS_delete
       [("resource_group_name", resource_group); ("availability_set_name", name)]
       (AvailabilitySetsOperations.delete (availability_sets compconn)
          resource_group name) ;;;
     ret (VBool true))
    [report_flag "compute" kw].

Definition availability_set_get (name resource_group : value) (kw : kwargs)
  : M value :=
  compconn <- get_client "compute" kw ;;
  try_except
    (av_set <-
       sdk AS_get
         [("resource_group_name", resource_group); ("availability_set_name", name)]
         (AvailabilitySetsOperations.get (availability_sets compconn)
            resource_group name) ;;
     ret (VDict (as_dict av_set)))
    [report [ResourceNotFoundError; HttpResponseError] "compute" kw].

Definition availability_sets_list (resource_group : value) (kw : kwargs)
  : M value :=
  compconn <- get_client "compute" kw ;;
  try_except
    (p <-
       sdk AS_list [("resource_group_name", resource_group)]
         (AvailabilitySetsOperations.list (availability_sets compconn)
            resource_group) ;;
     avail_sets <- paged_object_to_list AS_list p ;;
     d <- pure (key_by_name avail_sets []) ;;
     ret (VDict d))
    [report [HttpResponseError] "compute" kw].

Definition availability_sets_list_available_sizes (name resource_group : value)
  (kw : kwargs) : M value :=
  compconn <- get_client "compute" kw ;;
  try_except
    (p <-
       sdk AS_list_available_sizes
         [("resource_group_name", resource_group); ("availability_set_name", name)]
         (AvailabilitySetsOperations.list_available_sizes
            (availability_sets compconn) resource_group name) ;;
     sizes <- paged_object_to_list AS_list_available_sizes p ;;
     d <- pure (key_by_name sizes []) ;;
     ret (VDict d))
    [report [ResourceNotFoundError; HttpResponseError] "compute" kw].

(** [prefix] and [overwrite] default to ["capture-"] and [False]. *)
Definition virtual_machine_capture
  (name destination_name resource_group prefix overwrite : value) (kw : kwargs)
  : M value :=
  compconn <- get_client "compute" kw ;;
  try_except
    (vm <-
       sdk VM_begin_capture
         [("resource_group_name", resource_group); ("vm_name", name);
          ("parameters",
           VDict [(VStr "vhd_prefix", prefix);
                  (VStr "destination_container_name", destination_name);
                  (VStr "overwrite_vhds", overwrite)])]
         (VirtualMachinesOperations.begin_capture (virtual_machines compconn)
            resource_group name (mkCapture prefix destination_name overwrite)) ;;
     wait_result VM_begin_capture vm)
    [report [HttpResponseError] "compute" kw].

Definition virtual_machine_get (name resource_group : value) (kw : kwargs)
  : M value :=
  let expand :=
    match kw_get "expand" kw with
    | Some v => v
    | None => VNone
    end in
  compconn <- get_client "compute" kw ;;
  try_except
    (vm <-
       sdk VM_get
         [("resource_group_name", resource_group); ("vm_name", name);
          ("expand", expand)]
         (VirtualMachinesOperations.get (virtual_machines compconn)
            resource_group name expand) ;;
     ret (VDict (as_dict vm)))
    [report [HttpResponseError] "compute" kw].

Definition virtual_machine_convert_to_managed_disks (name resource_group : value) (kw : kwargs)
  : M value :=
  compconn <- get_client "compute" kw ;;
  try_except
    (vm <-
       sdk VM_begin_convert_to_managed_disks
         [("resource_group_name", resource_group); ("vm_name", name)]
         (VirtualMachinesOperations.begin_convert_to_managed_disks (virtual_machines compconn)
            resource_group name) ;;
     wait_result VM_begin_convert_to_managed_disks vm)
    [report [HttpResponseError] "comput" kw].

Definition virtual_machine_deallocate (name resource_group : value) (kw : kwargs)
  : M value :=
  compconn <- get_client "compute" kw ;;
  try_except
    (vm <-
       sdk VM_begin_deallocate
         [("resource_group_name", resource_group); ("vm_name", name)]
         (VirtualMachinesOperations.begin_deallocate (virtual_machines compconn)
            resource_group name) ;;
     wait_result VM_begin_deallocate vm)
    [report [HttpResponseError] "compute" kw].

Definition virtual_machine_generalize (name resource_group : value)
  (kw : kwargs) : M value :=
  compconn <- get_client "compute" kw ;;
  try_except
    (sdk VM_generalize
       [("resource_group_name", resource_group); ("vm_name", name)]
       (VirtualMachinesOperations.generalize (virtual_machines compconn)
          resource_group name) ;;;
     ret (VBool true))
    [report_flag "compute" kw].

Definition virtual_machines_list (resource_group : value) (kw : kwargs)
  : M value :=
  compconn <- get_client "compute" kw ;;
  try_except
    (p <-
       sdk VM_list [("resource_group_name", resource_group)]
         (VirtualMachinesOperations.list (virtual_machines compconn)
            resource_group) ;;
     items <- paged_object_to_list VM_list p ;;
     d <- pure (key_by_name items []) ;;
     ret (VDict d))
    [report [HttpResponseError] "compute" kw].

Definition virtual_machines_list_all (kw : kwargs)
  : M value :=
  compconn <- get_client "compute" kw ;;
  try_except
    (p <-
       sdk VM_list_all []
         (VirtualMachinesOperations.list_all (virtual_machines compconn)) ;;
     items <- paged_object_to_list VM_list_all p ;;
     d <- pure (key_by_name items []) ;;
     ret (VDict d))
    [report [HttpResponseError] "compute" kw].

Definition virtual_machines_list_available_sizes (name resource_group : value) (kw : kwargs)
  : M value :=
  compconn <- get_client "compute" kw ;;
  try_except
    (p <-
       sdk VM_list_available_sizes [("resource_group_name", resource_group); ("vm_name", name)]
         (VirtualMachinesOperations.list_available_sizes
            (virtual_machines compconn) resource_group name) ;;
     items <- paged_object_to_list VM_list_available_sizes p ;;
     d <- pure (key_by_name items []) ;;
     ret (VDict d))
    [report [HttpResponseError] "compute" kw].

Definition virtual_machine_power_off (name resource_group : value) (kw : kwargs)
  : M value :=
  compconn <- get_client "compute" kw ;;
  try_except
    (vm <-
       sdk VM_begin_power_off
         [("resource_group_name", resource_group); ("vm_name", name)]
         (VirtualMachinesOperations.begin_power_off (virtual_machines compconn)
            resource_group name) ;;
     wait_result VM_begin_power_off vm)
    [report [HttpResponseError] "compute" kw].

Definition virtual_machine_restart (name resource_group : value) (kw : kwargs)
  : M value :=
  compconn <- get_client "compute" kw ;;
  try_except
    (vm <-
       sdk VM_begin_restart
         [("resource_group_name", resource_group); ("vm_name", name)]
         (VirtualMachinesOperations.begin_restart (virtual_machines compconn)
            resource_group name) ;;
     wait_result VM_begin_restart vm)
    [report [HttpResponseError] "compute" kw].

Definition virtual_machine_start (name resource_group : value) (kw : kwargs)
  : M value :=
  compconn <- get_client "compute" kw ;;
  try_except
    (vm <-
       sdk VM_begin_start
         [("resource_group_name", resource_group); ("vm_name", name)]
         (VirtualMachinesOperations.begin_start (virtual_machines compconn)
            resource_group name) ;;
     wait_result VM_begin_start vm)
    [report [HttpResponseError] "compute" kw].

Definition virtual_machine_redeploy (name resource_group : value) (kw : kwargs)
  : M value :=
  compconn <- get_client "compute" kw ;;
  try_except
    (vm <-
       sdk VM_begin_redeploy
         [("resource_group_name", resource_group); ("vm_name", name)]
         (VirtualMachinesOperations.begin_redeploy (virtual_machines compconn)
            resource_group name) ;;
     wait_result VM_begin_redeploy vm)
    [report [HttpResponseError] "compute" kw].

(** A call of one of the seventeen functions of the module. *)
Inductive module_call : Type :=
| AvailabilitySetCreateOrUpdate (name resource_group : value) (kw : kwargs)
| AvailabilitySetDelete (name resource_group : value) (kw : kwargs)
| AvailabilitySetGet (name resource_group : value) (kw : kwargs)
| AvailabilitySetsList (resource_group : value) (kw : kwargs)
| AvailabilitySetsListAvailableSizes (name resource_group : value) (kw : kwargs)
| VirtualMachineCapture
    (name destination_name resource_group prefix overwrite : value) (kw : kwargs)
| VirtualMachineGet (name resource_group : value) (kw : kwargs)
| VirtualMachineConvertToManagedDisks (name resource_group : value) (kw : kwargs)
| VirtualMachineDeallocate (name resource_group : value) (kw : kwargs)
| VirtualMachineGeneralize (name resource_group : value) (kw : kwargs)
| VirtualMachinesList (resource_group : value) (kw : kwargs)
| VirtualMachinesListAll (kw : kwargs)
| VirtualMachinesListAvailableSizes (name resource_group : value) (kw : kwargs)
| VirtualMachinePowerOff (name resource_group : value) (kw : kwargs)
| VirtualMachineRestart (name resource_group : value) (kw : kwargs)
| VirtualMachineStart (name resource_group : value) (kw : kwargs)
| VirtualMachineRedeploy (name resource_group : value) (kw : kwargs).

Definition invoke (c : module_call) : M value :=
  match c with
  | AvailabilitySetCreateOrUpdate n g kw => availability_set_create_or_update n g kw
  | AvailabilitySetDelete n g kw => availability_set_delete n g kw
  | AvailabilitySetGet n g kw => availability_set_get n g kw
  | AvailabilitySetsList g kw => availability_sets_list g kw
  | AvailabilitySetsListAvailableSizes n g kw =>
      availability_sets_list_available_sizes n g kw
  | VirtualMachineCapture n d g p o kw => virtual_machine_capture n d g p o kw
  | VirtualMachineGet n g kw => virtual_machine_get n g kw
  | VirtualMachineConvertToManagedDisks n g kw =>
      virtual_machine_convert_to_managed_disks n g kw
  | VirtualMachineDeallocate n g kw => virtual_machine_deallocate n g kw
  | VirtualMachineGeneralize n g kw => virtual_machine_generalize n g kw
  | VirtualMachinesList g kw => virtual_machines_list g kw
  | VirtualMachinesListAll kw => virtual_machines_list_all kw
  | VirtualMachinesListAvailableSizes n g kw =>
      virtual_machines_list_available_sizes n g kw
  | VirtualMachinePowerOff n g kw => virtual_machine_power_off n g kw
  | VirtualMachineRestart n g kw => virtual_machine_restart n g kw
  | VirtualMachineStart n g kw => virtual_machine_start n g kw
  | VirtualMachineRedeploy n g kw => virtual_machine_redeploy n g kw
  end.

End Compute.

(** ** Reading a trace *)

(** The exception an SDK call raised: in the method itself, in the poller's
    [wait()] or [result()], or while the paged object was drained. *)
Definition sdk_raised (ev : event) : option exc :=
  match ev with
  | EvSdk _ _ x => x
  | EvWait _ x => x
  | EvResult _ x => x
  | EvPagedObjectToList _ out => raised out
  | _ => None
  end.

(** The exception the client factory raised. *)
Definition factory_raised (ev : event) : option exc :=
  match ev with
  | EvGetClient _ _ x => x
  | _ => None
  end.

(** The keyword arguments with which the client factory returned a client. *)
Definition acquired (ev : event) : option kwargs :=
  match ev with
  | EvGetClient _ kw None => Some kw
  | _ => None
  end.

(** The exception the object-model builder raised. *)
Definition model_failure (ev : event) : option exc :=
  match ev with
  | EvCreateObjectModel _ _ _ out => raised out
  | _ => None
  end.

(** The exception the SDK's [create_or_update] method raised. *)
Definition create_or_update_failure (ev : event) : option exc :=
  match ev with
  | EvSdk AS_create_or_update _ x => x
  | _ => None
  end.

(** The exception any call outside the module raised. *)
Definition failed (ev : event) : option exc :=
  match ev with
  | EvResourceGroupGet _ _ out => raised out
  | EvVirtualMachineGet _ _ _ out => raised out
  | EvGetClient _ _ x => x
  | EvCreateObjectModel _ _ _ out => raised out
  | EvSdk _ _ x => x
  | EvWait _ x => x
  | EvResult _ x => x
  | EvPagedObjectToList _ out => raised out
  | EvLogCloudError _ _ _ => None
  | EvLogError _ => None
  end.

(** The SDK method an event is a call of. *)
Definition sdk_method (ev : event) : option sdk_op :=
  match ev with
  | EvSdk op _ _ => Some op
  | _ => None
  end.

(** The flattened paged sequence a listing got. *)
Definition listed (ev : event) : option (list dict) :=
  match ev with
  | EvPagedObjectToList _ (Return items) => Some items
  | _ => None
  end.

Definition is_log_cloud_error (ev : event) : bool :=
  match ev with
  | EvLogCloudError _ _ _ => true
  | _ => false
  end.

Definition is_resource_group_get (ev : event) : bool :=
  match ev with
  | EvResourceGroupGet _ _ _ => true
  | _ => false
  end.

Definition is_virtual_machine_get (ev : event) : bool :=
  match ev with
  | EvVirtualMachineGet _ _ _ _ => true
  | _ => false
  end.

Definition is_create_object_model (ev : event) : bool :=
  match ev with
  | EvCreateObjectModel _ _ _ _ => true
  | _ => false
  end.

(** A step of a long-running operation. *)
Definition is_poll (ev : event) : bool :=
  match ev with
  | EvWait _ _ => true
  | EvResult _ _ => true
  | _ => false
  end.

(** [log.error] of line 92. *)
Definition location_missing : event :=
  EvLogError "Unable to determine location from resource group specified.".

(** ** What the functions answer *)

(** The two functions that answer with a boolean flag. *)
Definition returns_flag (c : module_call) : bool :=
  match c with
  | AvailabilitySetDelete _ _ _ => true
  | VirtualMachineGeneralize _ _ _ => true
  | _ => false
  end.

(** The five listing functions. *)
Definition is_listing (c : module_call) : bool :=
  match c with
  | AvailabilitySetsList _ _ => true
  | AvailabilitySetsListAvailableSizes _ _ _ => true
  | VirtualMachinesList _ _ => true
  | VirtualMachinesListAll _ => true
  | VirtualMachinesListAvailableSizes _ _ _ => true
  | _ => false
  end.

(** What a function answers when its SDK call raised [e] and the exception
    was handled. *)
Definition error_value (c : module_call) (e : exc) : value :=
  if returns_flag c then VBool false else error_mapping (exc_str e).

(** An error mapping or the boolean [False]. *)
Definition is_error_value (v : value) : bool :=
  match v with
  | VBool false => true
  | VDict d => dict_mem "error" d
  | _ => false
  end.

(** The client name each function hands to the logger. *)
Definition logger_client (c : module_call) : string :=
  match c with
  | VirtualMachineConvertToManagedDisks _ _ _ => "comput"
  | _ => "compute"
  end.

Definition could_not_be_built (e : exc) : value :=
  error_mapping ("The object model could not be built. (" ++ exc_str e ++ ")")%string.

Definition could_not_be_parsed (e : exc) : value :=
  error_mapping ("The object model could not be parsed. (" ++ exc_str e ++ ")")%string.

(** The exception classes of the error taxonomy: HTTP response errors,
    resource-not-found among them, and serialization errors. *)
Definition documented (c : exc_class) : bool :=
  issubclass c HttpResponseError || issubclass c SerializationError.

(** ** Names as dictionary keys *)

(** The key under which a listing files an item. *)
Definition item_key (item : dict) : option hkey :=
  match dict_lookup (HStr "name") item with
  | Some name => py_hash name
  | None => None
  end.

Definition named (h : hkey) (item : dict) : bool :=
  match item_key item with
  | Some h' => hkey_eqb h' h
  | None => false
  end.

(** The last item of the sequence with a given name. *)
Definition last_named (h : hkey) (items : list dict) : option dict :=
  find (named h) (rev items).

(** The keys of a dict, as they compare. *)
Definition dict_keys (d : dict) : list (option hkey) :=
  map (fun kv => py_hash (fst kv)) d.

(** ** Resolution of virtual machine names, as the specification words it *)

(** A name resolves when its lookup answers a mapping without "error". *)
Definition resolves (E : Env) (g : value) (kw : kwargs) (n : value) : bool :=
  match virtual_machine_get_answer E n g kw with
  | Return vm => negb (dict_mem "error" vm)
  | Raise _ => false
  end.

(** [{"id": <resolved id>}] for a name. *)
Definition id_object (E : Env) (g : value) (kw : kwargs) (n : value) : value :=
  VDict [(VStr "id",
          match virtual_machine_get_answer E n g kw with
          | Return vm =>
              match dict_lookup (HStr "id") vm with
              | Some id => VStr (py_str E id)
              | None => VNone
              end
          | Raise _ => VNone
          end)].

(** The id objects of the names that resolve, in the order of the names. *)
Definition vm_references (E : Env) (g : value) (kw : kwargs)
  (names : list value) : list value :=
  map (id_object E g kw) (filter (resolves E g kw) names).

(** The lookup of a name answers an error mapping or a mapping with an "id". *)
Definition lookup_answered (E : Env) (g : value) (kw : kwargs) (n : value)
  : Prop :=
  exists vm,
    virtual_machine_get_answer E n g kw = Return vm /\
    (dict_mem "error" vm = true \/ dict_mem "id" vm = true).

(** ** Readings that the module does not meet as they stand *)

(** Every function answers an HTTP response error of its SDK call with the
    error mapping, after logging it. *)
Definition reports_error_mapping (E : Env) (c : module_call) : Prop :=
  forall ev e,
    In ev (trace (invoke E c)) ->
    sdk_raised ev = Some e ->
    issubclass (exc_type e) HttpResponseError = true ->
    returned (invoke E c) = Return (error_mapping (exc_str e)) /\
    exists client kw, In (EvLogCloudError client (exc_str e) kw) (trace (invoke E c)).

(** No failure of a call outside the module leaves the function as an
    exception: the function answers an error value. *)
Definition failure_contained (E : Env) (c : module_call) : Prop :=
  forall ev e,
    In ev (trace (invoke E c)) ->
    failed ev = Some e ->
    exists v, returned (invoke E c) = Return v /\ is_error_value v = true.

(** Every documented exception of the SDK call is answered with the error
    mapping and logged exactly once under the name "compute". *)
Definition reported_once (E : Env) (c : module_call) : Prop :=
  forall ev e,
    In ev (trace (invoke E c)) ->
    sdk_raised ev = Some e ->
    documented (exc_type e) = true ->
    returned (invoke E c) = Return (error_mapping (exc_str e)) /\
    exists kw,
      filter is_log_cloud_error (trace (invoke E c)) =
        [EvLogCloudError "compute" (exc_str e) kw].

(** A listing answers a mapping that sends the name of each item of the
    sequence to that item. *)
Definition maps_every_item (E : Env) (c : module_call) : Prop :=
  forall ev items,
    is_listing c = true ->
    In ev (trace (invoke E c)) ->
    listed ev = Some items ->
    exists d,
      returned (invoke E c) = Return (VDict d) /\
      forall item h,
        In item items -> item_key item = Some h ->
        dict_lookup h d = Some (VDict item).

(** ** Sample collaborators *)

Definition testset : value := VStr "testset".
Definition testgroup : value := VStr "testgroup".
Definition testvm : value := VStr "testvm".

Definition empty_model : sdk_model := mkModel [].
Definition done_poller : lro_poller :=
  mkPoller (Return tt) (Return (Some empty_model)).
Definition no_pages : paged := mkPaged [] None.

(** Availability-set operations that all succeed. *)
Definition quiet_availability_sets : AvailabilitySetsOperations.t :=
  AvailabilitySetsOperations.mk
    (fun _ _ parameters => Return parameters)
    (fun _ _ => Return tt)
    (fun _ _ => Return empty_model)
    (fun _ => Return no_pages)
    (fun _ _ => Return no_pages).

(** Virtual-machine operations that all succeed. *)
Definition quiet_virtual_machines : VirtualMachinesOperations.t :=
  VirtualMachinesOperations.mk
    (fun _ _ _ => Return done_poller)
    (fun _ _ _ => Return empty_model)
    (fun _ _ => Return done_poller)
    (fun _ _ => Return done_poller)
    (fun _ _ => Return tt)
    (fun _ => Return no_pages)
    (Return no_pages)
    (fun _ _ => Return no_pages)
    (fun _ _ => Return done_poller)
    (fun _ _ => Return done_poller)
    (fun _ _ => Return done_poller)
    (fun _ _ => Return done_poller).

Definition quiet_client : ComputeManagementClient :=
  mkClient quiet_availability_sets quiet_virtual_machines.

(** A request object that holds the keyword arguments it was built from. *)
Definition kwargs_model (kw : kwargs) : sdk_model :=
  mkModel (map (fun kv => (VStr (fst kv), snd kv)) kw).

(** The lookup of a virtual machine: the machine named "gone" is not found,
    any other name has an id. *)
Definition sample_vm_lookup (name : value) : outcome dict :=
  match name with
  | VStr s =>
      if String.eqb s "gone" then
        Return [(VStr "error", VStr "(ResourceNotFound) gone")]
      else Return [(VStr "id", VStr ("/virtualMachines/" ++ s)%string); (VStr "name", name)]
  | _ => Return [(VStr "error", VStr "(InvalidParameter) name")]
  end.

(** An environment around a given client: the resource group is in
    "eastus" and the factory always returns the client. *)
Definition env_with (client : ComputeManagementClient) : Env :=
  mkEnv
    (fun _ _ => Return [(VStr "location", VStr "eastus")])
    (fun name _ _ => sample_vm_lookup name)
    (fun _ _ => Return client)
    (fun _ _ kw => Return (kwargs_model kw))
    (fun _ => "").

Definition conflict : exc := mkExc HttpResponseError "(Conflict) operation not allowed".
Definition not_found : exc := mkExc ResourceNotFoundError "(ResourceNotFound) testset".
Definition unserializable : exc := mkExc SerializationError "Unable to build a model".
Definition bad_keyword : exc := mkExc TypeError "unexpected keyword argument".
Definition no_subscription : exc :=
  mkExc SaltInvocationError "A subscription_id must be specified".

(** A client whose [availability_sets.delete] raises an HTTP response error. *)
Definition client_delete_fails : ComputeManagementClient :=
  mkClient
    (AvailabilitySetsOperations.mk
       (fun _ _ parameters => Return parameters)
       (fun _ _ => Raise conflict)
       (fun _ _ => Return empty_model)
       (fun _ => Return no_pages)
       (fun _ _ => Return no_pages))
    quiet_virtual_machines.

(** A client whose [availability_sets.get] finds nothing. *)
Definition client_get_missing : ComputeManagementClient :=
  mkClient
    (AvailabilitySetsOperations.mk
       (fun _ _ parameters => Return parameters)
       (fun _ _ => Return tt)
       (fun _ _ => Raise not_found)
       (fun _ => Return no_pages)
       (fun _ _ => Return no_pages))
    quiet_virtual_machines.

(** A client whose [availability_sets.create_or_update] cannot serialize
    the request. *)
Definition client_unserializable : ComputeManagementClient :=
  mkClient
    (AvailabilitySetsOperations.mk
       (fun _ _ _ => Raise unserializable)
       (fun _ _ => Return tt)
       (fun _ _ => Return empty_model)
       (fun _ => Return no_pages)
       (fun _ _ => Return no_pages))
    quiet_virtual_machines.

Definition web_eastus : dict := [(VStr "name", VStr "web"); (VStr "location", VStr "eastus")].
Definition web_westus : dict := [(VStr "name", VStr "web"); (VStr "location", VStr "westus")].
Definition db_eastus : dict := [(VStr "name", VStr "db"); (VStr "location", VStr "eastus")].

(** A client whose subscription has two machines named "web", in two
    resource groups. *)
Definition client_same_names : ComputeManagementClient :=
  mkClient quiet_availability_sets
    (VirtualMachinesOperations.mk
       (fun _ _ _ => Return done_poller)
       (fun _ _ _ => Return empty_model)
       (fun _ _ => Return done_poller)
       (fun _ _ => Return done_poller)
       (fun _ _ => Return tt)
       (fun _ => Return no_pages)
       (Return (mkPaged [mkModel web_eastus; mkModel db_eastus; mkModel web_westus] None))
       (fun _ _ => Return no_pages)
       (fun _ _ => Return done_poller)
       (fun _ _ => Return done_poller)
       (fun _ _ => Return done_poller)
       (fun _ _ => Return done_poller)).

(** An environment whose client factory raises. *)
Definition env_no_subscription : Env :=
  mkEnv
    (fun _ _ => Return [(VStr "location", VStr "eastus")])
    (fun name _ _ => sample_vm_lookup name)
    (fun _ _ => Raise no_subscription)
    (fun _ _ kw => Return (kwargs_model kw))
    (fun _ => "").

(** An environment whose object-model builder rejects the keyword arguments. *)
Definition env_bad_keyword : Env :=
  mkEnv
    (fun _ _ => Return [(VStr "location", VStr "eastus")])
    (fun name _ _ => sample_vm_lookup name)
    (fun _ _ => Return quiet_client)
    (fun _ _ _ => Raise bad_keyword)
    (fun _ => "").

(** An environment whose resource-group lookup answers an error mapping. *)
Definition env_no_group : Env :=
  mkEnv
    (fun _ _ => Return [(VStr "error", VStr "(ResourceGroupNotFound) testgroup")])
    (fun name _ _ => sample_vm_lookup name)
    (fun _ _ => Return quiet_client)
    (fun _ _ kw => Return (kwargs_model kw))
    (fun _ => "").

Definition eastus : kwargs := [("location", VStr "eastus")].

Definition three_machines : kwargs :=
  [("location", VStr "eastus");
   ("virtual_machines", VList [VStr "vm1"; VStr "gone"; VStr "vm2"])].

Definition one_machine : kwargs :=
  [("location", VStr "eastus"); ("virtual_machines", VStr "vm1")].

(** ** Loading the module *)

Definition __virtualname__ : string := "azurerm_compute".

(** [__virtual__()], lines 56-65: the name under which the module loads, or
    [False] with the reason when the Azure libraries could not be imported. *)
Definition __virtual__ (HAS_LIBS : bool) : (bool * string) + string :=
  if negb HAS_LIBS then
    inl (false,
         ("The following dependencies are required to use the Azure Resource Manager modules: "
          ++ "Microsoft Azure SDK for Python >= 2.0rc6, "
          ++ "MS REST Azure (msrestazure) >= 0.4")%string)
  else inr __virtualname__.

(** ** The shape of a call *)

(** The keyword arguments a call was made with. *)
Definition call_kwargs (c : module_call) : kwargs :=
  match c with
  | AvailabilitySetCreateOrUpdate _ _ kw => kw
  | AvailabilitySetDelete _ _ kw => kw
  | AvailabilitySetGet _ _ kw => kw
  | AvailabilitySetsList _ kw => kw
  | AvailabilitySetsListAvailableSizes _ _ kw => kw
  | VirtualMachineCapture _ _ _ _ _ kw => kw
  | VirtualMachineGet _ _ kw => kw
  | VirtualMachineConvertToManagedDisks _ _ kw => kw
  | VirtualMachineDeallocate _ _ kw => kw
  | VirtualMachineGeneralize _ _ kw => kw
  | VirtualMachinesList _ kw => kw
  | VirtualMachinesListAll kw => kw
  | VirtualMachinesListAvailableSizes _ _ kw => kw
  | VirtualMachinePowerOff _ _ kw => kw
  | VirtualMachineRestart _ _ kw => kw
  | VirtualMachineStart _ _ kw => kw
  | VirtualMachineRedeploy _ _ kw => kw
  end.

(** The method of the SDK client that each function wraps. *)
Definition wrapped_op (c : module_call) : sdk_op :=
  match c with
  | AvailabilitySetCreateOrUpdate _ _ _ => AS_create_or_update
  | AvailabilitySetDelete _ _ _ => AS_delete
  | AvailabilitySetGet _ _ _ => AS_get
  | AvailabilitySetsList _ _ => AS_list
  | AvailabilitySetsListAvailableSizes _ _ _ => AS_list_available_sizes
  | VirtualMachineCapture _ _ _ _ _ _ => VM_begin_capture
  | VirtualMachineGet _ _ _ => VM_get
  | VirtualMachineConvertToManagedDisks _ _ _ => VM_begin_convert_to_managed_disks
  | VirtualMachineDeallocate _ _ _ => VM_begin_deallocate
  | VirtualMachineGeneralize _ _ _ => VM_generalize
  | VirtualMachinesList _ _ => VM_list
  | VirtualMachinesListAll _ => VM_list_all
  | VirtualMachinesListAvailableSizes _ _ _ => VM_list_available_sizes
  | VirtualMachinePowerOff _ _ _ => VM_begin_power_off
  | VirtualMachineRestart _ _ _ => VM_begin_restart
  | VirtualMachineStart _ _ _ => VM_begin_start
  | VirtualMachineRedeploy _ _ _ => VM_begin_redeploy
  end.

Definition is_create_or_update (c : module_call) : bool :=
  match c with
  | AvailabilitySetCreateOrUpdate _ _ _ => true
  | _ => false
  end.

(** The seven functions that begin a long-running operation. *)
Definition is_long_running (c : module_call) : bool :=
  match c with
  | VirtualMachineCapture _ _ _ _ _ _ => true
  | VirtualMachineConvertToManagedDisks _ _ _ => true
  | VirtualMachineDeallocate _ _ _ => true
  | VirtualMachinePowerOff _ _ _ => true
  | VirtualMachineRestart _ _ _ => true
  | VirtualMachineStart _ _ _ => true
  | VirtualMachineRedeploy _ _ _ => true
  | _ => false
  end.

(** The functions that subscript a dict of their own accord:
    [item["name"]], [rg_props["location"]], [vm_instance["id"]]. *)
Definition subscripts (c : module_call) : bool :=
  is_listing c || is_create_or_update c.

(** The SDK method an event belongs to: the call, the poller's steps, the
    draining of the paged object. *)
Definition event_op (ev : event) : option sdk_op :=
  match ev with
  | EvSdk op _ _ => Some op
  | EvWait op _ => Some op
  | EvResult op _ => Some op
  | EvPagedObjectToList op _ => Some op
  | _ => None
  end.

Definition is_get_client (ev : event) : bool :=
  match ev with
  | EvGetClient _ _ _ => true
  | _ => false
  end.

Definition is_sdk_call (ev : event) : bool :=
  match ev with
  | EvSdk _ _ _ => true
  | _ => false
  end.

(** [wait()] returned. *)
Definition waited (ev : event) : bool :=
  match ev with
  | EvWait _ None => true
  | _ => false
  end.

(** The SDK method returned. *)
Definition answered (ev : event) : bool :=
  match ev with
  | EvSdk _ _ None => true
  | _ => false
  end.

(** The poller that a long-running function gets from a client, when the
    SDK's [begin_*] method returns one. *)
Definition begun (compconn : ComputeManagementClient) (c : module_call)
  : option (outcome lro_poller) :=
  let vms := virtual_machines compconn in
  match c with
  | VirtualMachineCapture n d g p o _ =>
      Some (VirtualMachinesOperations.begin_capture vms g n (mkCapture p d o))
  | VirtualMachineConvertToManagedDisks n g _ =>
      Some (VirtualMachinesOperations.begin_convert_to_managed_disks vms g n)
  | VirtualMachineDeallocate n g _ =>
      Some (VirtualMachinesOperations.begin_deallocate vms g n)
  | VirtualMachinePowerOff n g _ =>
      Some (VirtualMachinesOperations.begin_power_off vms g n)
  | VirtualMachineRestart n g _ =>
      Some (VirtualMachinesOperations.begin_restart vms g n)
  | VirtualMachineStart n g _ =>
      Some (VirtualMachinesOperations.begin_start vms g n)
  | VirtualMachineRedeploy n g _ =>
      Some (VirtualMachinesOperations.begin_redeploy vms g n)
  | _ => None
  end.

(** The message the shared logger was given. *)
Definition logged (ev : event) : option string :=
  match ev with
  | EvLogCloudError _ message _ => Some message
  | _ => None
  end.

Definition is_wait (ev : event) : bool :=
  match ev with
  | EvWait _ _ => true
  | _ => false
  end.

Definition is_result (ev : event) : bool :=
  match ev with
  | EvResult _ _ => true
  | _ => false
  end.

(** What [availability_set_create_or_update] does before it builds the
    request object: the lookups, the factory, [log.error]. *)
Definition is_preamble (ev : event) : bool :=
  match ev with
  | EvResourceGroupGet _ _ _ => true
  | EvVirtualMachineGet _ _ _ _ => true
  | EvGetClient _ _ _ => true
  | EvLogError _ => true
  | _ => false
  end.

(** A client whose [virtual_machines.get] cannot deserialize the answer. *)
Definition client_vm_get_unserializable : ComputeManagementClient :=
  mkClient quiet_availability_sets
    (VirtualMachinesOperations.mk
       (fun _ _ _ => Return done_poller)
       (fun _ _ _ => Raise unserializable)
       (fun _ _ => Return done_poller)
       (fun _ _ => Return done_poller)
       (fun _ _ => Return tt)
       (fun _ => Return no_pages)
       (Return no_pages)
       (fun _ _ => Return no_pages)
       (fun _ _ => Return done_poller)
       (fun _ _ => Return done_poller)
       (fun _ _ => Return done_poller)
       (fun _ _ => Return done_poller)).

Definition restarted : sdk_model := mkModel [(VStr "status", VStr "Succeeded")].

(** What [None.as_dict()] raises. *)
Definition no_as_dict : exc :=
  mkExc AttributeError "'NoneType' object has no attribute 'as_dict'".

(** A client whose restart completes with nothing to show: [result()] is
    [None]. *)
Definition client_restart_no_result : ComputeManagementClient :=
  mkClient quiet_availability_sets
    (VirtualMachinesOperations.mk
       (fun _ _ _ => Return done_poller)
       (fun _ _ _ => Return empty_model)
       (fun _ _ => Return done_poller)
       (fun _ _ => Return done_poller)
       (fun _ _ => Return tt)
       (fun _ => Return no_pages)
       (Return no_pages)
       (fun _ _ => Return no_pages)
       (fun _ _ => Return done_poller)
       (fun _ _ => Return (mkPoller (Return tt) (Return None)))
       (fun _ _ => Return done_poller)
       (fun _ _ => Return done_poller)).

(** A client whose restart succeeds with a result to show. *)
Definition client_restarts : ComputeManagementClient :=
  mkClient quiet_availability_sets
    (VirtualMachinesOperations.mk
       (fun _ _ _ => Return done_poller)
       (fun _ _ _ => Return empty_model)
       (fun _ _ => Return done_poller)
       (fun _ _ => Return done_poller)
       (fun _ _ => Return tt)
       (fun _ => Return no_pages)
       (Return no_pages)
       (fun _ _ => Return no_pages)
       (fun _ _ => Return done_poller)
       (fun _ _ => Return (mkPoller (Return tt) (Return (Some restarted))))
       (fun _ _ => Return done_poller)
       (fun _ _ => Return done_poller)).

(** ** More sample collaborators *)

(** The exception with which the lookup of a name stops
    [availability_set_create_or_update]: the one the lookup raises, or the
    KeyError of [vm_instance["id"]] when it answers a mapping with neither
    "error" nor "id". *)
Definition lookup_breaks (E : Env) (g : value) (kw : kwargs) (n : value)
  : option exc :=
  match virtual_machine_get_answer E n g kw with
  | Raise e => Some e
  | Return vm =>
      if dict_mem "error" vm then None
      else if dict_mem "id" vm then None
      else Some (mkExc KeyError "'id'")
  end.

(** A lookup of virtual machines that raises for the machine named "down". *)
Definition env_lookup_down : Env :=
  mkEnv
    (fun _ _ => Return [(VStr "location", VStr "eastus")])
    (fun name _ _ =>
       match name with
       | VStr "down" => Raise conflict
       | _ => sample_vm_lookup name
       end)
    (fun _ _ => Return quiet_client)
    (fun _ _ kw => Return (kwargs_model kw))
    (fun _ => "").

Definition machines_with_down : kwargs :=
  [("location", VStr "eastus");
   ("virtual_machines", VList [VStr "vm1"; VStr "down"; VStr "vm2"])].

(** A resource-group lookup that answers a mapping without a location. *)
Definition env_no_location : Env :=
  mkEnv
    (fun _ _ => Return [(VStr "name", VStr "testgroup")])
    (fun name _ _ => sample_vm_lookup name)
    (fun _ _ => Return quiet_client)
    (fun _ _ kw => Return (kwargs_model kw))
    (fun _ => "").

Definition nameless : dict := [(VStr "location", VStr "eastus")].

(** A client whose listing of a resource group holds an item without name. *)
Definition client_nameless_item : ComputeManagementClient :=
  mkClient
    (AvailabilitySetsOperations.mk
       (fun _ _ parameters => Return parameters)
       (fun _ _ => Return tt)
       (fun _ _ => Return empty_model)
       (fun _ => Return (mkPaged [mkModel web_eastus; mkModel nameless] None))
       (fun _ _ => Return no_pages))
    quiet_virtual_machines.

(** The keyword arguments the shared logger was given. *)
Definition logged_kwargs (ev : event) : option kwargs :=
  match ev with
  | EvLogCloudError _ _ kw => Some kw
  | _ => None
  end.

(** ** Keyword arguments and names on their way *)

(** The keyword arguments a call outside the module was given. *)
Definition event_kwargs (ev : event) : option kwargs :=
  match ev with
  | EvResourceGroupGet _ kw _ => Some kw
  | EvVirtualMachineGet _ _ kw _ => Some kw
  | EvGetClient _ kw _ => Some kw
  | EvCreateObjectModel _ _ kw _ => Some kw
  | EvLogCloudError _ _ kw => Some kw
  | _ => None
  end.


(** What a lookup raises when the answer of the SDK cannot be decoded. *)
Definition undecodable : exc :=
  mkExc (OtherException "DeserializationError") "Unable to deserialize the response".

(** A lookup of virtual machines that cannot decode the answer for the
    machine named "down". *)
Definition env_lookup_undecodable : Env :=
  mkEnv
    (fun _ _ => Return [(VStr "location", VStr "eastus")])
    (fun name _ _ =>
       match name with
       | VStr "down" => Raise undecodable
       | _ => sample_vm_lookup name
       end)
    (fun _ _ => Return quiet_client)
    (fun _ _ kw => Return (kwargs_model kw))
    (fun _ => "").

(** ** The functions at work *)

Example py_str_of_int (E : Env) : py_str E (VInt (-42)) = "-42".
Proof. reflexivity. Qed.

Example py_str_of_none (E : Env) : py_str E VNone = "None".
Proof. reflexivity. Qed.

(** A successful [availability_set_get]: the factory, then the SDK's [get]. *)
Example get_succeeds :
  availability_set_get (env_with quiet_client) testset testgroup [] =
  (Return (VDict []),
   [EvGetClient "compute" [] None;
    EvSdk AS_get
      [("resource_group_name", testgroup); ("availability_set_name", testset)]
      None]).
Proof. reflexivity. Qed.

(** A failing [availability_set_delete]: the exception is logged and the
    flag stays [False]. *)
Example delete_fails :
  availability_set_delete (env_with client_delete_fails) testset testgroup [] =
  (Return (VBool false),
   [EvGetClient "compute" [] None;
    EvSdk AS_delete
      [("resource_group_name", testgroup); ("availability_set_name", testset)]
      (Some conflict);
    EvLogCloudError "compute" "(Conflict) operation not allowed" []]).
Proof. reflexivity. Qed.

(** A restart: the operation is begun, waited for, and its result reshaped. *)
Example restart_succeeds :
  virtual_machine_restart (env_with quiet_client) testvm testgroup [] =
  (Return (VDict []),
   [EvGetClient "compute" [] None;
    EvSdk VM_begin_restart
      [("resource_group_name", testgroup); ("vm_name", testvm)] None;
    EvWait VM_begin_restart None;
    EvResult VM_begin_restart None]).
Proof. reflexivity. Qed.

(** Without a location, the resource group's is adopted before anything else. *)
Example create_adopts_location :
  trace (availability_set_create_or_update (env_with quiet_client)
           testset testgroup []) =
  [EvResourceGroupGet testgroup [] (Return [(VStr "location", VStr "eastus")]);
   EvGetClient "compute" eastus None;
   EvCreateObjectModel "compute" "AvailabilitySet" eastus
     (Return (kwargs_model eastus));
   EvSdk AS_create_or_update
     [("resource_group_name", testgroup); ("availability_set_name", testset);
      ("parameters", VDict [(VStr "location", VStr "eastus")])]
     None].
Proof. reflexivity. Qed.

(** ** Laws of the monad *)

Lemma returned_bind {A B : Type} (m : M A) (f : A -> M B) :
  returned (bind m f) =
  match returned m with
  | Return a => returned (f a)
  | Raise e => Raise e
  end.
Proof.
  destruct m as [[a | e] t]; simpl; [destruct (f a) |]; reflexivity.
Qed.

Lemma trace_bind {A B : Type} (m : M A) (f : A -> M B) :
  trace (bind m f) =
  trace m ++ match returned m with
             | Return a => trace (f a)
             | Raise _ => []
             end.
Proof.
  destruct m as [[a | e] t]; simpl; [destruct (f a) | rewrite app_nil_r]; reflexivity.
Qed.

Lemma returned_call {A : Type} (o : outcome A) (ev : event) :
  returned (call o ev) = o.
Proof. reflexivity. Qed.

Lemma trace_call {A : Type} (o : outcome A) (ev : event) :
  trace (call o ev) = [ev].
Proof. reflexivity. Qed.

Lemma returned_pure {A : Type} (o : outcome A) : returned (pure o) = o.
Proof. reflexivity. Qed.

Lemma trace_pure {A : Type} (o : outcome A) : trace (pure o) = [].
Proof. reflexivity. Qed.

Lemma returned_ret {A : Type} (a : A) : returned (ret a) = Return a.
Proof. reflexivity. Qed.

Lemma trace_ret {A : Type} (a : A) : trace (ret a) = [].
Proof. reflexivity. Qed.

(** ** Proof steps

    A function is unfolded down to the answers of its collaborators, and the
    proof goes by cases on them. *)

Ltac outcomes :=
  repeat match goal with
    | |- context [match ?o with Some _ => _ | None => _ end] =>
        match type of o with
        | option exc => destruct o as [[[] ?] |]
        | option sdk_model => destruct o as [? |]
        end; simpl
    | |- context [match ?o with Return _ => _ | Raise _ => _ end] =>
        destruct o as [? | [[] ?]]; simpl
    end.

Ltac outcomes_eq :=
  repeat match goal with
    | |- context [match ?o with Some _ => _ | None => _ end] =>
        match type of o with
        | option exc => destruct o as [[[] ?] |] eqn:?
        | option sdk_model => destruct o as [? |] eqn:?
        end; simpl
    | |- context [match ?o with Return _ => _ | Raise _ => _ end] =>
        destruct o as [? | [[] ?]] eqn:?; simpl
    end.

Ltac pick_event :=
  simpl;
  let H := fresh in
  intros H;
  repeat (destruct H as [<- | H]; [simpl; try discriminate |]);
  try contradiction.

Ltac unfold_module :=
  unfold invoke, availability_set_delete, availability_set_get,
    availability_sets_list, availability_sets_list_available_sizes,
    virtual_machine_capture, virtual_machine_get,
    virtual_machine_convert_to_managed_disks, virtual_machine_deallocate,
    virtual_machine_generalize, virtual_machines_list,
    virtual_machines_list_all, virtual_machines_list_available_sizes,
    virtual_machine_power_off, virtual_machine_restart,
    virtual_machine_start, virtual_machine_redeploy,
    wait_result, result_as_dict, paged_object_to_list, get_client, call, pure,
    sdk, bind,
    try_except.

(** ** The calls of [availability_set_create_or_update] *)

Lemma filter_nothing {A : Type} (f : A -> bool) (l : list A) :
  (forall x, In x l -> f x = false) -> filter f l = [].
Proof.
  induction l as [| x l IH]; simpl; intros H; [reflexivity |].
  rewrite (H x (or_introl eq_refl)). apply IH. intros y Hy. apply H. now right.
Qed.

Lemma filter_everything {A : Type} (f : A -> bool) (l : list A) :
  (forall x, In x l -> f x = true) -> filter f l = l.
Proof.
  induction l as [| x l IH]; simpl; intros H; [reflexivity |].
  rewrite (H x (or_introl eq_refl)). f_equal. apply IH. intros y Hy. apply H. now right.
Qed.

Lemma resolve_vm_names_trace (E : Env) (names : list value) (g : value)
  (kw : kwargs) (acc : list value) (ev : event) :
  In ev (trace (resolve_vm_names E names g kw acc)) ->
  exists n out, ev = EvVirtualMachineGet n g kw out.
Proof.
  revert acc; induction names as [| n names IH]; intros acc.
  - intros [].
  - cbn [resolve_vm_names]. rewrite trace_bind. intros H.
    apply in_app_or in H as [[<- | []] | H]; [eauto |].
    unfold salt_virtual_machine_get, call, returned in H; cbn [fst] in H.
    destruct (virtual_machine_get_answer E n g kw) as [d | e]; [| easy].
    rewrite trace_bind in H. apply in_app_or in H as [H | H].
    + destruct (dict_mem "error" d); simpl in H; [easy |].
      destruct (getitem d "id"); simpl in H; easy.
    + destruct (returned _) in H; [eauto | easy].
Qed.

Lemma link_virtual_machines_trace (E : Env) (g : value) (kw : kwargs)
  (ev : event) :
  In ev (trace (link_virtual_machines E g kw)) ->
  exists n out, ev = EvVirtualMachineGet n g kw out.
Proof.
  unfold link_virtual_machines.
  destruct (kw_get "virtual_machines" kw) as [[] |]; try easy.
  rewrite trace_bind. intros H. apply in_app_or in H as [H | H].
  - eapply resolve_vm_names_trace; eassumption.
  - destruct (returned _) in H; easy.
Qed.

Lemma build_and_send_failure (E : Env) (name g : value)
  (compconn : ComputeManagementClient) (kw : kwargs) (ev : event) (e : exc) :
  In ev (trace (build_and_send E name g compconn kw)) ->
  sdk_raised ev = Some e ->
  issubclass (exc_type e) HttpResponseError = true ->
  returned (build_and_send E name g compconn kw) =
    Return (error_mapping (exc_str e)) /\
  filter is_log_cloud_error (trace (build_and_send E name g compconn kw)) =
    [EvLogCloudError "compute" (exc_str e) kw].
Proof.
  unfold build_and_send, create_object_model, call, sdk, bind, try_except; simpl.
  outcomes; pick_event.
  all: intros [= <-]; simpl; intros; try discriminate; eauto.
Qed.

Ltac step :=
  unfold get_client, salt_resource_group_get, log_error;
  repeat rewrite ?returned_bind, ?trace_bind, ?returned_call, ?trace_call,
    ?returned_pure, ?trace_pure, ?returned_ret, ?trace_ret;
  cbn [app].

Lemma located_failure (E : Env) (name g : value) (kw : kwargs) (ev : event) (e : exc) :
  In ev (trace (create_or_update_located E name g kw)) ->
  sdk_raised ev = Some e ->
  issubclass (exc_type e) HttpResponseError = true ->
  returned (create_or_update_located E name g kw) =
    Return (error_mapping (exc_str e)) /\
  exists kw',
    filter is_log_cloud_error (trace (create_or_update_located E name g kw)) =
      [EvLogCloudError "compute" (exc_str e) kw'].
Proof.
  unfold create_or_update_located. step.
  destruct (get_client_answer E "compute" kw) as [compconn | x].
  2:{ pick_event. }
  step.
  pose proof (link_virtual_machines_trace E g kw) as Hlink.
  destruct (link_virtual_machines E g kw) as [[kw2 | x] T]; cbn [returned trace fst snd] in *.
  2:{ intros [<- | H]; [discriminate |]. rewrite app_nil_r in H.
      apply Hlink in H as (? & ? & ->). discriminate. }
  intros [<- | H]; [discriminate |].
  apply in_app_or in H as [H | H].
  { apply Hlink in H as (? & ? & ->). discriminate. }
  intros Hr Hs. destruct (build_and_send_failure _ _ _ _ _ _ _ H Hr Hs) as [Hv Hf].
  split; [exact Hv |]. exists kw2.
  cbn [app filter is_log_cloud_error raised]. change (snd ?m) with (trace m).
  rewrite filter_app, Hf.
  rewrite filter_nothing; [reflexivity |].
  intros x Hx. apply Hlink in Hx as (? & ? & ->). reflexivity.
Qed.

Lemma sdk_failure_handled (E : Env) (c : module_call) (ev : event) (e : exc) :
  In ev (trace (invoke E c)) ->
  sdk_raised ev = Some e ->
  issubclass (exc_type e) HttpResponseError = true ->
  returned (invoke E c) = Return (error_value c e) /\
  exists kw',
    filter is_log_cloud_error (trace (invoke E c)) =
      [EvLogCloudError (logger_client c) (exc_str e) kw'].
Proof.
  destruct c.
  2-17: unfold_module; unfold error_value; simpl; outcomes; pick_event;
    intros [= <-]; simpl; intros; try discriminate; eauto.
  unfold invoke, availability_set_create_or_update, error_value; simpl returns_flag; cbv iota.
  destruct (negb (kw_mem "location" kw)); [| apply located_failure].
  step.
  destruct (resource_group_get_answer E resource_group kw) as [props | x].
  2:{ pick_event. }
  destruct (dict_mem "error" props).
  { step. pick_event. }
  step.
  destruct (getitem props "location") as [loc | x].
  2:{ pick_event. }
  intros [<- | H]; [discriminate |].
  intros Hr Hs.
  destruct (located_failure _ _ _ _ _ _ H Hr Hs) as [Hv [kw' Hf]].
  split; [exact Hv |]. exists kw'. exact Hf.
Qed.

(** ** Dictionaries keyed by name *)

Lemma hkey_eqb_eq (a b : hkey) : hkey_eqb a b = true <-> a = b.
Proof.
  destruct a, b; simpl; split; try congruence; try discriminate.
  - intros H. apply Z.eqb_eq in H. congruence.
  - intros [= ->]. apply Z.eqb_refl.
  - intros H. apply String.eqb_eq in H. congruence.
  - intros [= ->]. apply String.eqb_refl.
Qed.

Lemma key_is_hash (h : hkey) (k : value) :
  key_is h k = true <-> py_hash k = Some h.
Proof.
  unfold key_is. destruct (py_hash k) as [h' |].
  - rewrite hkey_eqb_eq. split; congruence.
  - split; discriminate.
Qed.

Lemma key_is_other (h h' : hkey) (k : value) :
  py_hash k = Some h -> h <> h' -> key_is h' k = false.
Proof.
  intros Hk Hne. destruct (key_is h' k) eqn:H; [| reflexivity].
  apply key_is_hash in H. congruence.
Qed.

Lemma dict_lookup_insert (h h' : hkey) (k v : value) (d : dict) :
  py_hash k = Some h ->
  dict_lookup h' (dict_insert h k v d) =
  if hkey_eqb h h' then Some v else dict_lookup h' d.
Proof.
  intros Hk. induction d as [| [k0 v0] d IH]; simpl.
  - unfold key_is. rewrite Hk. reflexivity.
  - destruct (key_is h k0) eqn:H0; simpl.
    + apply key_is_hash in H0. unfold key_is at 1 2. rewrite H0.
      destruct (hkey_eqb h h'); reflexivity.
    + destruct (key_is h' k0) eqn:H1; [| exact IH].
      destruct (hkey_eqb h h') eqn:Heq; [| reflexivity].
      apply hkey_eqb_eq in Heq. congruence.
Qed.

Lemma dict_keys_insert (h : hkey) (k v : value) (d : dict) :
  py_hash k = Some h ->
  NoDup (dict_keys d) -> NoDup (dict_keys (dict_insert h k v d)).
Proof.
  intros Hk. induction d as [| [k0 v0] d IH]; simpl; intros Hnd.
  - rewrite Hk. constructor; [intros [] | constructor].
  - destruct (key_is h k0) eqn:H0; simpl; [exact Hnd |].
    inversion Hnd as [| ? ? Hin Hnd']; subst. constructor; [| auto].
    intros Hin'. apply Hin. clear - Hin' H0 Hk.
    induction d as [| [k1 v1] d IH]; simpl in *.
    + destruct Hin' as [Hin' | []]. rewrite Hk in Hin'.
      symmetry in Hin'. apply key_is_hash in Hin'. congruence.
    + destruct (key_is h k1); simpl in *; [exact Hin' |].
      destruct Hin' as [Hin' | Hin']; auto.
Qed.

Lemma find_app {A : Type} (f : A -> bool) (l1 l2 : list A) :
  find f (l1 ++ l2) =
  match find f l1 with
  | Some x => Some x
  | None => find f l2
  end.
Proof.
  induction l1 as [| x l1 IH]; simpl; [reflexivity |].
  destruct (f x); [reflexivity | exact IH].
Qed.

Lemma key_by_name_spec (items : list dict) (acc : dict) :
  Forall (fun item => item_key item <> None) items ->
  exists d,
    key_by_name items acc = Return d /\
    (forall h, dict_lookup h d =
               match last_named h items with
               | Some item => Some (VDict item)
               | None => dict_lookup h acc
               end) /\
    (NoDup (dict_keys acc) -> NoDup (dict_keys d)).
Proof.
  intros Hall. revert acc. induction Hall as [| item items Hk _ IH]; intros acc.
  - exists acc. simpl. auto.
  - unfold item_key in Hk. simpl. unfold getitem, setitem.
    destruct (dict_lookup (HStr "name") item) as [name |] eqn:Hn; [| easy].
    destruct (py_hash name) as [h0 |] eqn:Hh; [| easy].
    destruct (IH (dict_insert h0 name (VDict item) acc)) as (d & Hd & Hl & Hnd).
    exists d. split; [exact Hd |]. split.
    + intros h. rewrite Hl. unfold last_named. simpl. rewrite find_app.
      destruct (find (named h) (rev items)); [reflexivity |].
      rewrite (dict_lookup_insert _ _ _ _ _ Hh). simpl.
      unfold named, item_key. rewrite Hn, Hh.
      destruct (hkey_eqb h0 h); reflexivity.
    + intros H. apply Hnd. apply dict_keys_insert; assumption.
Qed.

Lemma listing_success (E : Env) (c : module_call) (ev : event)
  (items : list dict) (d : dict) :
  is_listing c = true ->
  In ev (trace (invoke E c)) ->
  listed ev = Some items ->
  key_by_name items [] = Return d ->
  returned (invoke E c) = Return (VDict d).
Proof.
  destruct c; try discriminate; intros _.
  all: unfold_module; simpl; outcomes_eq; pick_event;
    intros [= <-]; congruence.
Qed.

(** ** Keyword arguments on their way to the request object *)

Lemma kw_get_set_same (s : string) (v : value) (kw : kwargs) :
  kw_get s (kw_set s v kw) = Some v.
Proof.
  induction kw as [| [k v0] kw IH]; simpl.
  - now rewrite String.eqb_refl.
  - destruct (String.eqb k s) eqn:H; simpl; rewrite H; auto.
Qed.

Lemma kw_get_set_other (s s' : string) (v : value) (kw : kwargs) :
  s <> s' -> kw_get s' (kw_set s v kw) = kw_get s' kw.
Proof.
  intros Hne. induction kw as [| [k v0] kw IH]; simpl.
  - destruct (String.eqb s s') eqn:H; [apply String.eqb_eq in H; easy | reflexivity].
  - destruct (String.eqb k s) eqn:H; simpl.
    + apply String.eqb_eq in H; subst k.
      destruct (String.eqb s s') eqn:H'; [apply String.eqb_eq in H'; easy | reflexivity].
    + destruct (String.eqb k s'); auto.
Qed.

Lemma build_and_send_events (E : Env) (name g : value)
  (compconn : ComputeManagementClient) (kw : kwargs) (ev : event) :
  In ev (trace (build_and_send E name g compconn kw)) ->
  factory_raised ev = None /\ acquired ev = None /\
  is_resource_group_get ev = false /\ is_virtual_machine_get ev = false.
Proof.
  unfold build_and_send, create_object_model, call, sdk, bind, try_except; simpl.
  outcomes; pick_event; auto.
Qed.

Lemma build_and_send_models (E : Env) (name g : value)
  (compconn : ComputeManagementClient) (kw : kwargs) :
  filter is_create_object_model (trace (build_and_send E name g compconn kw)) =
    [EvCreateObjectModel "compute" "AvailabilitySet" kw
       (create_object_model_answer E "compute" "AvailabilitySet" kw)].
Proof.
  unfold build_and_send, create_object_model, call, sdk, bind, try_except; simpl.
  outcomes; reflexivity.
Qed.

Lemma located_returned (E : Env) (name g : value) (kw : kwargs) :
  returned (create_or_update_located E name g kw) =
  match get_client_answer E "compute" kw with
  | Raise e => Raise e
  | Return compconn =>
      match returned (link_virtual_machines E g kw) with
      | Raise e => Raise e
      | Return kw2 => returned (build_and_send E name g compconn kw2)
      end
  end.
Proof.
  unfold create_or_update_located. step.
  destruct (get_client_answer E "compute" kw); [| reflexivity].
  step. reflexivity.
Qed.

Lemma located_trace (E : Env) (name g : value) (kw : kwargs) :
  trace (create_or_update_located E name g kw) =
  EvGetClient "compute" kw (raised (get_client_answer E "compute" kw)) ::
  match get_client_answer E "compute" kw with
  | Raise _ => []
  | Return compconn =>
      trace (link_virtual_machines E g kw) ++
      match returned (link_virtual_machines E g kw) with
      | Raise _ => []
      | Return kw2 => trace (build_and_send E name g compconn kw2)
      end
  end.
Proof.
  unfold create_or_update_located. step.
  destruct (get_client_answer E "compute" kw); [| reflexivity].
  step. reflexivity.
Qed.

Lemma located_events (E : Env) (name g : value) (kw : kwargs) (ev : event) :
  In ev (trace (create_or_update_located E name g kw)) ->
  is_resource_group_get ev = false.
Proof.
  rewrite located_trace. intros [<- | H]; [reflexivity |].
  destruct (get_client_answer E "compute" kw); [| easy].
  apply in_app_or in H as [H | H].
  - apply link_virtual_machines_trace in H as (? & ? & ->). reflexivity.
  - destruct (returned _) in H; [| easy]. now apply build_and_send_events in H.
Qed.

Lemma located_factory (E : Env) (name g : value) (kw : kwargs) (ev : event)
  (e : exc) :
  In ev (trace (create_or_update_located E name g kw)) ->
  factory_raised ev = Some e ->
  returned (create_or_update_located E name g kw) = Raise e.
Proof.
  rewrite located_trace, located_returned.
  destruct (get_client_answer E "compute" kw) as [compconn | x]; simpl.
  - intros [<- | H]; [discriminate |].
    apply in_app_or in H as [H | H].
    + apply link_virtual_machines_trace in H as (? & ? & ->). discriminate.
    + destruct (returned _) in H; [| easy].
      apply build_and_send_events in H as [-> _]. discriminate.
  - intros [<- | []]. simpl. congruence.
Qed.

Lemma located_acquired (E : Env) (name g : value) (kw kw1 : kwargs) (ev : event) :
  In ev (trace (create_or_update_located E name g kw)) ->
  acquired ev = Some kw1 ->
  kw1 = kw /\
  filter is_virtual_machine_get (trace (create_or_update_located E name g kw)) =
    trace (link_virtual_machines E g kw) /\
  forall kw2,
    returned (link_virtual_machines E g kw) = Return kw2 ->
    filter is_create_object_model (trace (create_or_update_located E name g kw)) =
      [EvCreateObjectModel "compute" "AvailabilitySet" kw2
         (create_object_model_answer E "compute" "AvailabilitySet" kw2)].
Proof.
  rewrite located_trace.
  pose proof (link_virtual_machines_trace E g kw) as Hlink.
  destruct (get_client_answer E "compute" kw) as [compconn | x]; simpl.
  2:{ intros [<- | []]. discriminate. }
  intros Hin Hacq.
  assert (kw1 = kw) as ->.
  { destruct Hin as [<- | H]; [simpl in Hacq; congruence |].
    apply in_app_or in H as [H | H].
    - apply Hlink in H as (? & ? & ->). discriminate.
    - destruct (returned _) in H; [| easy].
      apply build_and_send_events in H as (_ & H & _). congruence. }
  split; [reflexivity |]. rewrite !filter_app. split.
  - rewrite (filter_everything is_virtual_machine_get
               (trace (link_virtual_machines E g kw))).
    2:{ intros x Hx. apply Hlink in Hx as (? & ? & ->). reflexivity. }
    rewrite (filter_nothing is_virtual_machine_get
               (match returned _ with Return _ => _ | Raise _ => _ end)).
    + apply app_nil_r.
    + intros x Hx. destruct (returned _) in Hx; [| easy].
      now apply build_and_send_events in Hx.
  - intros kw2 ->. rewrite build_and_send_models.
    rewrite filter_nothing; [reflexivity |].
    intros x Hx. apply Hlink in Hx as (? & ? & ->). reflexivity.
Qed.

Lemma create_or_update_unfold (E : Env) (name g : value) (kw : kwargs) :
  availability_set_create_or_update E name g kw =
  if kw_mem "location" kw then create_or_update_located E name g kw
  else
    match resource_group_get_answer E g kw with
    | Raise e => (Raise e, [EvResourceGroupGet g kw (Raise e)])
    | Return props =>
        if dict_mem "error" props then
          (Return (VBool false),
           [EvResourceGroupGet g kw (Return props); location_missing])
        else
          match dict_lookup (HStr "location") props with
          | None =>
              (Raise (mkExc KeyError "'location'"),
               [EvResourceGroupGet g kw (Return props)])
          | Some location =>
              let m :=
                create_or_update_located E name g (kw_set "location" location kw) in
              (returned m, EvResourceGroupGet g kw (Return props) :: trace m)
          end
    end.
Proof.
  unfold availability_set_create_or_update.
  destruct (kw_mem "location" kw); [reflexivity |]. simpl negb. cbv iota.
  unfold salt_resource_group_get, call, bind at 1.
  destruct (resource_group_get_answer E g kw) as [props | e]; [| reflexivity].
  destruct (dict_mem "error" props); [reflexivity |].
  unfold getitem, pure, bind.
  destruct (dict_lookup (HStr "location") props); [| reflexivity].
  destruct (create_or_update_located _ _ _ _). reflexivity.
Qed.

Lemma located_lookups (E : Env) (name g : value) (kw : kwargs) :
  filter is_virtual_machine_get (trace (create_or_update_located E name g kw)) =
  match get_client_answer E "compute" kw with
  | Return _ => trace (link_virtual_machines E g kw)
  | Raise _ => []
  end.
Proof.
  rewrite located_trace. simpl.
  destruct (get_client_answer E "compute" kw) as [compconn | x]; [| reflexivity].
  pose proof (link_virtual_machines_trace E g kw) as Hlink.
  rewrite filter_app, filter_everything.
  2:{ intros x Hx. apply Hlink in Hx as (? & ? & ->). reflexivity. }
  rewrite filter_nothing; [apply app_nil_r |].
  intros x Hx. destruct (returned _) in Hx; [| easy].
  now apply build_and_send_events in Hx.
Qed.

Lemma link_untouched (E : Env) (g : value) (kw : kwargs) (v : value) :
  kw_get "virtual_machines" kw = Some v ->
  (forall names, v <> VList names) ->
  link_virtual_machines E g kw = ret kw.
Proof.
  unfold link_virtual_machines. intros -> H.
  destruct v; try reflexivity. now destruct (H l).
Qed.

Lemma create_or_update_factory (E : Env) (name g : value) (kw : kwargs)
  (ev : event) (e : exc) :
  In ev (trace (availability_set_create_or_update E name g kw)) ->
  factory_raised ev = Some e ->
  returned (availability_set_create_or_update E name g kw) = Raise e.
Proof.
  rewrite create_or_update_unfold.
  destruct (kw_mem "location" kw); [apply located_factory |].
  destruct (resource_group_get_answer E g kw) as [props | x]; [| pick_event].
  destruct (dict_mem "error" props); [pick_event |].
  destruct (dict_lookup (HStr "location") props); [| pick_event].
  cbn [returned trace fst snd]. intros [<- | H]; [discriminate |].
  now apply located_factory.
Qed.

Lemma create_or_update_acquired (E : Env) (name g : value) (kw kw1 : kwargs)
  (ev : event) :
  In ev (trace (availability_set_create_or_update E name g kw)) ->
  acquired ev = Some kw1 ->
  (forall s, s <> "location" -> kw_get s kw1 = kw_get s kw) /\
  filter is_virtual_machine_get
    (trace (availability_set_create_or_update E name g kw)) =
    trace (link_virtual_machines E g kw1) /\
  forall kw2,
    returned (link_virtual_machines E g kw1) = Return kw2 ->
    filter is_create_object_model
      (trace (availability_set_create_or_update E name g kw)) =
      [EvCreateObjectModel "compute" "AvailabilitySet" kw2
         (create_object_model_answer E "compute" "AvailabilitySet" kw2)].
Proof.
  rewrite create_or_update_unfold.
  destruct (kw_mem "location" kw).
  { intros H Ha. destruct (located_acquired _ _ _ _ _ _ H Ha) as (-> & ? & ?). auto. }
  destruct (resource_group_get_answer E g kw) as [props | x]; [| pick_event].
  destruct (dict_mem "error" props); [pick_event |].
  destruct (dict_lookup (HStr "location") props) as [location |]; [| pick_event].
  cbn [returned trace fst snd]. intros [<- | H]; [discriminate |]. intros Ha.
  destruct (located_acquired _ _ _ _ _ _ H Ha) as (-> & Hv & Hm).
  split; [| split].
  - intros s Hs. apply kw_get_set_other. congruence.
  - exact Hv.
  - exact Hm.
Qed.

Lemma create_or_update_lookups_none (E : Env) (name g : value) (kw : kwargs)
  (v : value) :
  kw_get "virtual_machines" kw = Some v ->
  (forall names, v <> VList names) ->
  filter is_virtual_machine_get
    (trace (availability_set_create_or_update E name g kw)) = [].
Proof.
  intros Hv Hl. rewrite create_or_update_unfold.
  assert (forall kw', kw_get "virtual_machines" kw' = Some v ->
            filter is_virtual_machine_get
              (trace (create_or_update_located E name g kw')) = []) as Hloc.
  { intros kw' H. rewrite located_lookups.
    destruct (get_client_answer E "compute" kw'); [| reflexivity].
    now rewrite (link_untouched _ _ _ _ H Hl). }
  destruct (kw_mem "location" kw); [now apply Hloc |].
  destruct (resource_group_get_answer E g kw) as [props | x]; [| reflexivity].
  destruct (dict_mem "error" props); [reflexivity |].
  destruct (dict_lookup (HStr "location") props) as [location |]; [| reflexivity].
  cbn [trace snd filter is_virtual_machine_get]. apply Hloc.
  rewrite kw_get_set_other; [exact Hv | discriminate].
Qed.



Lemma build_and_send_serialization (E : Env) (name g : value)
  (compconn : ComputeManagementClient) (kw : kwargs) (ev : event) (e : exc) :
  In ev (trace (build_and_send E name g compconn kw)) ->
  (model_failure ev = Some e ->
   issubclass (exc_type e) TypeError = true ->
   returned (build_and_send E name g compconn kw) = Return (could_not_be_built e)) /\
  (create_or_update_failure ev = Some e ->
   issubclass (exc_type e) SerializationError = true ->
   returned (build_and_send E name g compconn kw) = Return (could_not_be_parsed e)).
Proof.
  unfold build_and_send, create_object_model, call, sdk, bind, try_except; simpl.
  outcomes; pick_event.
  all: split; intros [= <-]; simpl; intros; try discriminate; eauto.
Qed.

Lemma located_tail (E : Env) (name g : value) (kw : kwargs) (ev : event) :
  In ev (trace (create_or_update_located E name g kw)) ->
  is_create_object_model ev = true \/ sdk_method ev <> None ->
  exists compconn kw2,
    In ev (trace (build_and_send E name g compconn kw2)) /\
    returned (create_or_update_located E name g kw) =
      returned (build_and_send E name g compconn kw2).
Proof.
  rewrite located_trace, located_returned.
  destruct (get_client_answer E "compute" kw) as [compconn | x]; simpl.
  2:{ intros [<- | []] [H | H]; [discriminate | now destruct H]. }
  intros [<- | H] Hk; [destruct Hk as [Hk | Hk]; [discriminate | now destruct Hk] |].
  apply in_app_or in H as [H | H].
  - apply link_virtual_machines_trace in H as (? & ? & ->).
    destruct Hk as [Hk | Hk]; [discriminate | now destruct Hk].
  - destruct (returned (link_virtual_machines E g kw)) as [kw2 | x]; [| easy].
    eauto.
Qed.

Lemma create_or_update_tail (E : Env) (name g : value) (kw : kwargs) (ev : event) :
  In ev (trace (availability_set_create_or_update E name g kw)) ->
  is_create_object_model ev = true \/ sdk_method ev <> None ->
  exists compconn kw2,
    In ev (trace (build_and_send E name g compconn kw2)) /\
    returned (availability_set_create_or_update E name g kw) =
      returned (build_and_send E name g compconn kw2).
Proof.
  rewrite create_or_update_unfold.
  destruct (kw_mem "location" kw); [apply located_tail |].
  assert (forall x : event,
            is_create_object_model x = false -> sdk_method x = None ->
            is_create_object_model x = true \/ sdk_method x <> None -> False) as Hno.
  { intros x H1 H2 [H | H]; congruence. }
  destruct (resource_group_get_answer E g kw) as [props | x].
  2:{ intros [<- | []] Hk. now apply Hno in Hk. }
  destruct (dict_mem "error" props).
  { intros [<- | [<- | []]] Hk; now apply Hno in Hk. }
  destruct (dict_lookup (HStr "location") props) as [location |].
  2:{ intros [<- | []] Hk. now apply Hno in Hk. }
  cbn [returned trace fst snd]. intros [<- | H] Hk; [now apply Hno in Hk |].
  now apply located_tail.
Qed.

Lemma kw_mem_set (s : string) (v : value) (kw : kwargs) :
  kw_mem s (kw_set s v kw) = true.
Proof. unfold kw_mem. now rewrite kw_get_set_same. Qed.


(** ** Errors of the SDK call *)

Lemma error_value_is_error (c : module_call) (e : exc) :
  is_error_value (error_value c e) = true.
Proof. unfold error_value. destruct (returns_flag c); reflexivity. Qed.

Lemma factory_failure_propagates (E : Env) (c : module_call) (ev : event)
  (e : exc) :
  In ev (trace (invoke E c)) ->
  factory_raised ev = Some e ->
  returned (invoke E c) = Raise e.
Proof.
  destruct c.
  1: apply create_or_update_factory.
  all: unfold_module; simpl; outcomes; pick_event; intros [= <-]; reflexivity.
Qed.

(** C1 (amended).  For every module function and every HttpResponseError,
    ResourceNotFoundError included, that the SDK call it wraps raises, the
    function catches the exception and logs it through the shared
    cloud-error logger with the exception's string form as message;
    [availability_set_delete] and [virtual_machine_generalize] then return
    [False], every other function returns [{"error": <message>}]. *)
Theorem http_error_caught_and_logged (E : Env) (c : module_call) (ev : event)
  (e : exc) :
  In ev (trace (invoke E c)) ->
  sdk_raised ev = Some e ->
  issubclass (exc_type e) HttpResponseError = true ->
  returned (invoke E c) =
    Return (if returns_flag c then VBool false else error_mapping (exc_str e)) /\
  exists client kw,
    In (EvLogCloudError client (exc_str e) kw) (trace (invoke E c)).
Proof.
  intros Hin Hr Hs.
  destruct (sdk_failure_handled E c ev e Hin Hr Hs) as [Hv [kw' Hf]].
  split; [exact Hv |]. exists (logger_client c), kw'.
  assert (In (EvLogCloudError (logger_client c) (exc_str e) kw')
            (filter is_log_cloud_error (trace (invoke E c)))) as H
    by (rewrite Hf; now left).
  apply filter_In in H. tauto.
Qed.

Lemma http_error_caught_and_logged_witness :
  In (EvSdk AS_get
        [("resource_group_name", testgroup); ("availability_set_name", testset)]
        (Some not_found))
     (trace (invoke (env_with client_get_missing)
               (AvailabilitySetGet testset testgroup []))) /\
  sdk_raised
    (EvSdk AS_get
       [("resource_group_name", testgroup); ("availability_set_name", testset)]
       (Some not_found)) = Some not_found /\
  issubclass (exc_type not_found) HttpResponseError = true /\
  returned (invoke (env_with client_get_missing)
              (AvailabilitySetGet testset testgroup [])) =
    Return (error_mapping (exc_str not_found)) /\
  exists client kw,
    In (EvLogCloudError client (exc_str not_found) kw)
       (trace (invoke (env_with client_get_missing)
                 (AvailabilitySetGet testset testgroup []))).
Proof.
  assert (In (EvSdk AS_get
                [("resource_group_name", testgroup); ("availability_set_name", testset)]
                (Some not_found))
             (trace (invoke (env_with client_get_missing)
                       (AvailabilitySetGet testset testgroup [])))) as Hin
    by (simpl; auto).
  split; [exact Hin |]. split; [reflexivity |]. split; [reflexivity |].
  exact (http_error_caught_and_logged (env_with client_get_missing)
           (AvailabilitySetGet testset testgroup []) _ not_found Hin
           eq_refl eq_refl).
Defined.

(** C1, as it stands, fails: [availability_set_delete] catches and logs the
    HttpResponseError of the SDK's [delete] but returns [False], not the
    error mapping. *)
Lemma delete_reports_no_error_mapping :
  ~ reports_error_mapping (env_with client_delete_fails)
      (AvailabilitySetDelete testset testgroup []).
Proof.
  intros H.
  destruct (H (EvSdk AS_delete
                 [("resource_group_name", testgroup);
                  ("availability_set_name", testset)]
                 (Some conflict))
              conflict) as [Hv _].
  - simpl. auto.
  - reflexivity.
  - reflexivity.
  - discriminate Hv.
Qed.

(** C2 (amended).  For every module function: when the SDK call it wraps
    raises HttpResponseError or a subclass, the function returns an error
    value, an error mapping or [False], and no exception leaves it; an
    exception that the client factory raises is not caught and leaves the
    function. *)
Theorem sdk_failure_contained_factory_failure_propagates
  (E : Env) (c : module_call) :
  (forall ev e,
     In ev (trace (invoke E c)) ->
     sdk_raised ev = Some e ->
     issubclass (exc_type e) HttpResponseError = true ->
     exists v, returned (invoke E c) = Return v /\ is_error_value v = true) /\
  (forall ev e,
     In ev (trace (invoke E c)) ->
     factory_raised ev = Some e ->
     returned (invoke E c) = Raise e).
Proof.
  split.
  - intros ev e Hin Hr Hs.
    destruct (sdk_failure_handled E c ev e Hin Hr Hs) as [Hv _].
    exists (error_value c e). split; [exact Hv | apply error_value_is_error].
  - intros ev e. apply factory_failure_propagates.
Qed.

Lemma sdk_failure_contained_factory_failure_propagates_witness :
  (exists v,
     returned (invoke (env_with client_delete_fails)
                 (AvailabilitySetDelete testset testgroup [])) = Return v /\
     is_error_value v = true) /\
  returned (invoke env_no_subscription (VirtualMachineStart testvm testgroup [])) =
    Raise no_subscription.
Proof.
  split.
  - apply (proj1 (sdk_failure_contained_factory_failure_propagates
                    (env_with client_delete_fails)
                    (AvailabilitySetDelete testset testgroup []))
             (EvSdk AS_delete
                [("resource_group_name", testgroup);
                 ("availability_set_name", testset)]
                (Some conflict))
             conflict).
    + simpl. auto.
    + reflexivity.
    + reflexivity.
  - apply (proj2 (sdk_failure_contained_factory_failure_propagates
                    env_no_subscription
                    (VirtualMachineStart testvm testgroup []))
             (EvGetClient "compute" [] (Some no_subscription))
             no_subscription).
    + simpl. auto.
    + reflexivity.
Defined.

(** C2, as it stands, fails: the client factory is called outside every
    [try], so its exception leaves [availability_set_get]. *)
Lemma factory_failure_leaves_get :
  ~ failure_contained env_no_subscription
      (AvailabilitySetGet testset testgroup []).
Proof.
  intros H.
  destruct (H (EvGetClient "compute" [] (Some no_subscription)) no_subscription)
    as (v & Hv & _).
  - simpl. auto.
  - reflexivity.
  - discriminate Hv.
Qed.

(** C5 (amended).  For every module function other than
    [availability_set_delete] and [virtual_machine_generalize], and every
    HttpResponseError, ResourceNotFoundError included, that the wrapped
    client call raises, the function returns [{"error": <message>}] and
    invokes the shared error logger exactly once, with the message; in each
    of these functions other than
    [virtual_machine_convert_to_managed_disks] the name it passes is
    "compute". *)
Theorem http_error_logged_once (E : Env) (c : module_call) (ev : event)
  (e : exc) :
  returns_flag c = false ->
  In ev (trace (invoke E c)) ->
  sdk_raised ev = Some e ->
  issubclass (exc_type e) HttpResponseError = true ->
  returned (invoke E c) = Return (error_mapping (exc_str e)) /\
  exists client kw,
    filter is_log_cloud_error (trace (invoke E c)) =
      [EvLogCloudError client (exc_str e) kw] /\
    match c with
    | VirtualMachineConvertToManagedDisks _ _ _ => True
    | _ => client = "compute"
    end.
Proof.
  intros Hflag Hin Hr Hs.
  destruct (sdk_failure_handled E c ev e Hin Hr Hs) as [Hv [kw' Hf]].
  unfold error_value in Hv. rewrite Hflag in Hv.
  split; [exact Hv |]. exists (logger_client c), kw'.
  split; [exact Hf |]. destruct c; simpl; auto.
Qed.

Lemma http_error_logged_once_witness :
  returns_flag (AvailabilitySetGet testset testgroup eastus) = false /\
  In (EvSdk AS_get
        [("resource_group_name", testgroup); ("availability_set_name", testset)]
        (Some not_found))
     (trace (invoke (env_with client_get_missing)
               (AvailabilitySetGet testset testgroup eastus))) /\
  sdk_raised
    (EvSdk AS_get
       [("resource_group_name", testgroup); ("availability_set_name", testset)]
       (Some not_found)) = Some not_found /\
  issubclass (exc_type not_found) HttpResponseError = true /\
  returned (invoke (env_with client_get_missing)
              (AvailabilitySetGet testset testgroup eastus)) =
    Return (error_mapping (exc_str not_found)) /\
  exists client kw,
    filter is_log_cloud_error
      (trace (invoke (env_with client_get_missing)
                (AvailabilitySetGet testset testgroup eastus))) =
      [EvLogCloudError client (exc_str not_found) kw] /\
    client = "compute".
Proof.
  assert (In (EvSdk AS_get
                [("resource_group_name", testgroup); ("availability_set_name", testset)]
                (Some not_found))
             (trace (invoke (env_with client_get_missing)
                       (AvailabilitySetGet testset testgroup eastus)))) as Hin
    by (simpl; auto).
  split; [reflexivity |]. split; [exact Hin |].
  split; [reflexivity |]. split; [reflexivity |].
  exact (http_error_logged_once (env_with client_get_missing)
           (AvailabilitySetGet testset testgroup eastus) _ not_found
           eq_refl Hin eq_refl eq_refl).
Defined.

(** C5, as it stands, fails: a SerializationError of the SDK's
    [create_or_update] is answered with the "could not be parsed" mapping,
    not with [{"error": <message>}], and the logger is not invoked. *)
Lemma serialization_error_not_reported :
  ~ reported_once (env_with client_unserializable)
      (AvailabilitySetCreateOrUpdate testset testgroup eastus).
Proof.
  intros H.
  destruct (H (EvSdk AS_create_or_update
                 [("resource_group_name", testgroup);
                  ("availability_set_name", testset);
                  ("parameters", VDict (as_dict (kwargs_model eastus)))]
                 (Some unserializable))
              unserializable) as [Hv _].
  - simpl. auto.
  - reflexivity.
  - reflexivity.
  - discriminate Hv.
Qed.

(** The client name that [virtual_machine_convert_to_managed_disks] hands to
    the logger is "comput" (line 390). *)
Lemma convert_to_managed_disks_logger_client (E : Env) (name g : value)
  (kw : kwargs) (ev : event) (e : exc) :
  In ev (trace (virtual_machine_convert_to_managed_disks E name g kw)) ->
  sdk_raised ev = Some e ->
  issubclass (exc_type e) HttpResponseError = true ->
  filter is_log_cloud_error
    (trace (virtual_machine_convert_to_managed_disks E name g kw)) =
    [EvLogCloudError "comput" (exc_str e) kw].
Proof.
  unfold_module; simpl; outcomes; pick_event;
    intros [= <-]; simpl; intros; try discriminate; reflexivity.
Qed.

Lemma link_returned_kwargs (E : Env) (g : value) (kw kw2 : kwargs) :
  returned (link_virtual_machines E g kw) = Return kw2 ->
  forall s, s <> "virtual_machines" -> kw_get s kw2 = kw_get s kw.
Proof.
  unfold link_virtual_machines.
  destruct (kw_get "virtual_machines" kw) as [[] |];
    try (intros [= <-]; reflexivity).
  rewrite returned_bind.
  destruct (returned (resolve_vm_names E l g kw [])); [| discriminate].
  rewrite returned_ret. intros [= <-] s Hs.
  apply kw_get_set_other. congruence.
Qed.

Lemma build_and_send_kwargs (E : Env) (name g : value)
  (compconn : ComputeManagementClient) (kw kw' : kwargs) (ev : event) :
  In ev (trace (build_and_send E name g compconn kw)) ->
  event_kwargs ev = Some kw' -> kw' = kw.
Proof.
  unfold build_and_send, create_object_model, call, sdk, bind, try_except; simpl.
  outcomes; pick_event; intros [= <-]; reflexivity.
Qed.

Lemma located_kwargs (E : Env) (name g : value) (kw kw' : kwargs) (ev : event) :
  In ev (trace (create_or_update_located E name g kw)) ->
  event_kwargs ev = Some kw' ->
  forall s, s <> "virtual_machines" -> kw_get s kw' = kw_get s kw.
Proof.
  rewrite located_trace. intros [<- | H].
  { intros [= <-]. reflexivity. }
  destruct (get_client_answer E "compute" kw) as [compconn | x]; [| easy].
  apply in_app_or in H as [H | H].
  - apply (link_virtual_machines_trace E g kw) in H as (? & ? & ->).
    intros [= <-]. reflexivity.
  - destruct (returned (link_virtual_machines E g kw)) as [kw2 | x] eqn:Hl;
      [| easy].
    intros Hk. rewrite (build_and_send_kwargs _ _ _ _ _ _ _ H Hk).
    exact (link_returned_kwargs E g kw kw2 Hl).
Qed.

(** ** The location of a new availability set *)

(** C3.  A call of [availability_set_create_or_update] without a "location"
    keyword queries the resource-group lookup exactly once.  When the lookup
    answers an error mapping, the function logs, returns [False] and calls
    nothing else, the SDK's [create_or_update] in particular.  When it
    answers a mapping with a location, the function adopts it: its next
    call is the client factory, with keyword arguments that hold that
    location and are otherwise the ones it got; every later call that
    takes keyword arguments, the lookups of virtual machines, the builder
    and the logger, is given that location; and from the lookup on the
    function goes on as the call with that location does. *)
Theorem location_looked_up_once (E : Env) (name g : value) (kw : kwargs) :
  kw_mem "location" kw = false ->
  filter is_resource_group_get
    (trace (availability_set_create_or_update E name g kw)) =
    [EvResourceGroupGet g kw (resource_group_get_answer E g kw)] /\
  (forall rg_props,
     resource_group_get_answer E g kw = Return rg_props ->
     dict_mem "error" rg_props = true ->
     returned (availability_set_create_or_update E name g kw) =
       Return (VBool false) /\
     trace (availability_set_create_or_update E name g kw) =
       [EvResourceGroupGet g kw (Return rg_props); location_missing] /\
     forall ev,
       In ev (trace (availability_set_create_or_update E name g kw)) ->
       sdk_method ev = None) /\
  (forall rg_props location,
     resource_group_get_answer E g kw = Return rg_props ->
     dict_mem "error" rg_props = false ->
     dict_lookup (HStr "location") rg_props = Some location ->
     (exists kw1 rest,
        trace (availability_set_create_or_update E name g kw) =
          EvResourceGroupGet g kw (Return rg_props) ::
          EvGetClient "compute" kw1 (raised (get_client_answer E "compute" kw1)) ::
          rest /\
        kw_get "location" kw1 = Some location /\
        (forall s, s <> "location" -> kw_get s kw1 = kw_get s kw) /\
        (forall ev kw',
           In ev rest -> event_kwargs ev = Some kw' ->
           kw_get "location" kw' = Some location)) /\
     returned (availability_set_create_or_update E name g kw) =
       returned (availability_set_create_or_update E name g
                   (kw_set "location" location kw)) /\
     trace (availability_set_create_or_update E name g kw) =
       EvResourceGroupGet g kw (Return rg_props) ::
       trace (availability_set_create_or_update E name g
                (kw_set "location" location kw))).
Proof.
  intros Hloc. rewrite (create_or_update_unfold E name g kw), Hloc.
  split; [| split].
  - destruct (resource_group_get_answer E g kw) as [props | x]; [| reflexivity].
    destruct (dict_mem "error" props); [reflexivity |].
    destruct (dict_lookup (HStr "location") props); [| reflexivity].
    cbn [trace snd filter is_resource_group_get]. f_equal.
    apply filter_nothing. intros ev. apply located_events.
  - intros props -> ->. split; [reflexivity |]. split; [reflexivity |].
    intros ev [<- | [<- | []]]; reflexivity.
  - intros props location -> -> ->. split.
    + cbn [trace snd].
      pose proof (located_kwargs E name g (kw_set "location" location kw)) as Hk.
      rewrite located_trace in Hk |- *.
      eexists. eexists. split; [reflexivity |].
      split; [apply kw_get_set_same |]. split.
      * intros s Hs. apply kw_get_set_other. congruence.
      * intros ev kw' Hin Hev.
        rewrite (Hk kw' ev (or_intror Hin) Hev "location"); [| discriminate].
        apply kw_get_set_same.
    + rewrite (create_or_update_unfold E name g (kw_set "location" location kw)).
      rewrite kw_mem_set. split; reflexivity.
Qed.

Lemma location_looked_up_once_witness :
  kw_mem "location" [] = false /\
  filter is_resource_group_get
    (trace (availability_set_create_or_update (env_with quiet_client)
              testset testgroup [])) =
    [EvResourceGroupGet testgroup []
       (resource_group_get_answer (env_with quiet_client) testgroup [])] /\
  (returned (availability_set_create_or_update env_no_group testset testgroup []) =
     Return (VBool false) /\
   trace (availability_set_create_or_update env_no_group testset testgroup []) =
     [EvResourceGroupGet testgroup []
        (Return [(VStr "error", VStr "(ResourceGroupNotFound) testgroup")]);
      location_missing] /\
   forall ev,
     In ev (trace (availability_set_create_or_update env_no_group
                     testset testgroup [])) ->
     sdk_method ev = None) /\
  ((exists kw1 rest,
      trace (availability_set_create_or_update (env_with quiet_client)
               testset testgroup []) =
        EvResourceGroupGet testgroup [] (Return [(VStr "location", VStr "eastus")]) ::
        EvGetClient "compute" kw1
          (raised (get_client_answer (env_with quiet_client) "compute" kw1)) ::
        rest /\
      kw_get "location" kw1 = Some (VStr "eastus") /\
      (forall s, s <> "location" -> kw_get s kw1 = kw_get s []) /\
      (forall ev kw',
         In ev rest -> event_kwargs ev = Some kw' ->
         kw_get "location" kw' = Some (VStr "eastus"))) /\
   returned (availability_set_create_or_update (env_with quiet_client)
               testset testgroup []) =
     returned (availability_set_create_or_update (env_with quiet_client)
                 testset testgroup (kw_set "location" (VStr "eastus") [])) /\
   trace (availability_set_create_or_update (env_with quiet_client)
            testset testgroup []) =
     EvResourceGroupGet testgroup [] (Return [(VStr "location", VStr "eastus")]) ::
     trace (availability_set_create_or_update (env_with quiet_client)
              testset testgroup (kw_set "location" (VStr "eastus") []))).
Proof.
  split; [reflexivity |]. split; [| split].
  - exact (proj1 (location_looked_up_once (env_with quiet_client)
                    testset testgroup [] eq_refl)).
  - exact (proj1 (proj2 (location_looked_up_once env_no_group
                           testset testgroup [] eq_refl))
             _ eq_refl eq_refl).
  - exact (proj2 (proj2 (location_looked_up_once (env_with quiet_client)
                           testset testgroup [] eq_refl))
             _ _ eq_refl eq_refl eq_refl).
Defined.

(** ** The virtual machines of a new availability set *)




(** The sample call: two lookups, then the exception of the second. *)
Example raising_lookup_leaves_the_call :
  availability_set_create_or_update env_lookup_undecodable
    testset testgroup machines_with_down =
  (Raise undecodable,
   [EvGetClient "compute" machines_with_down None;
    EvVirtualMachineGet (VStr "vm1") testgroup machines_with_down
      (Return [(VStr "id", VStr "/virtualMachines/vm1"); (VStr "name", VStr "vm1")]);
    EvVirtualMachineGet (VStr "down") testgroup machines_with_down
      (Raise undecodable)]).
Proof. reflexivity. Qed.

(** The names of the sample call resolve to two id objects: "gone" is dropped. *)
Example three_machines_references :
  vm_references (env_with quiet_client) testgroup three_machines
    [VStr "vm1"; VStr "gone"; VStr "vm2"] =
  [VDict [(VStr "id", VStr "/virtualMachines/vm1")];
   VDict [(VStr "id", VStr "/virtualMachines/vm2")]].
Proof. reflexivity. Qed.

(** C10.  In a call of [availability_set_create_or_update] whose
    "virtual_machines" keyword is present but is not a list, no name is
    looked up, and once the function has its client the object-model
    builder gets the keyword arguments with the value as it came. *)
Theorem non_list_virtual_machines_passed_through (E : Env) (name g : value)
  (kw : kwargs) (v : value) :
  kw_get "virtual_machines" kw = Some v ->
  (forall names, v <> VList names) ->
  filter is_virtual_machine_get
    (trace (availability_set_create_or_update E name g kw)) = [] /\
  forall kw1,
    In (EvGetClient "compute" kw1 None)
       (trace (availability_set_create_or_update E name g kw)) ->
    kw_get "virtual_machines" kw1 = Some v /\
    filter is_create_object_model
      (trace (availability_set_create_or_update E name g kw)) =
      [EvCreateObjectModel "compute" "AvailabilitySet" kw1
         (create_object_model_answer E "compute" "AvailabilitySet" kw1)].
Proof.
  intros Hvm Hnl. split.
  - eapply create_or_update_lookups_none; eassumption.
  - intros kw1 Hin.
    destruct (create_or_update_acquired E name g kw kw1 _ Hin eq_refl)
      as (Hsame & _ & Hmodel).
    assert (kw_get "virtual_machines" kw1 = Some v) as Hvm1
      by (rewrite Hsame; [exact Hvm | discriminate]).
    split; [exact Hvm1 |]. apply Hmodel.
    now rewrite (link_untouched E g kw1 v Hvm1 Hnl).
Qed.

Lemma non_list_virtual_machines_passed_through_witness :
  kw_get "virtual_machines" one_machine = Some (VStr "vm1") /\
  (forall names, VStr "vm1" <> VList names) /\
  filter is_virtual_machine_get
    (trace (availability_set_create_or_update (env_with quiet_client)
              testset testgroup one_machine)) = [] /\
  kw_get "virtual_machines" one_machine = Some (VStr "vm1") /\
  filter is_create_object_model
    (trace (availability_set_create_or_update (env_with quiet_client)
              testset testgroup one_machine)) =
    [EvCreateObjectModel "compute" "AvailabilitySet" one_machine
       (create_object_model_answer (env_with quiet_client)
          "compute" "AvailabilitySet" one_machine)].
Proof.
  assert (forall names, VStr "vm1" <> VList names) as Hnl by discriminate.
  split; [reflexivity |]. split; [exact Hnl |].
  split.
  - exact (proj1 (non_list_virtual_machines_passed_through
                    (env_with quiet_client) testset testgroup one_machine
                    (VStr "vm1") eq_refl Hnl)).
  - apply (proj2 (non_list_virtual_machines_passed_through
                    (env_with quiet_client) testset testgroup one_machine
                    (VStr "vm1") eq_refl Hnl)).
    simpl. auto.
Defined.

(** ** Serialization failures *)

(** C6.  In [availability_set_create_or_update], a TypeError of the
    object-model builder is surfaced as
    [{"error": "The object model could not be built. (<detail>)"}] and a
    SerializationError of the SDK's [create_or_update] as
    [{"error": "The object model could not be parsed. (<detail>)"}], where
    <detail> is the exception's string form. *)
Theorem serialization_failures_surfaced (E : Env) (name g : value)
  (kw : kwargs) :
  (forall ev e,
     In ev (trace (availability_set_create_or_update E name g kw)) ->
     model_failure ev = Some e ->
     issubclass (exc_type e) TypeError = true ->
     returned (availability_set_create_or_update E name g kw) =
       Return (VDict [(VStr "error",
                       VStr ("The object model could not be built. ("
                             ++ exc_str e ++ ")")%string)])) /\
  (forall ev e,
     In ev (trace (availability_set_create_or_update E name g kw)) ->
     create_or_update_failure ev = Some e ->
     issubclass (exc_type e) SerializationError = true ->
     returned (availability_set_create_or_update E name g kw) =
       Return (VDict [(VStr "error",
                       VStr ("The object model could not be parsed. ("
                             ++ exc_str e ++ ")")%string)])).
Proof.
  split; intros ev e Hin Hf Hs.
  - assert (is_create_object_model ev = true \/ sdk_method ev <> None) as Hk
      by (left; destruct ev; try discriminate; reflexivity).
    destruct (create_or_update_tail E name g kw ev Hin Hk) as (c & kw2 & Ht & ->).
    exact (proj1 (build_and_send_serialization E name g c kw2 ev e Ht) Hf Hs).
  - assert (is_create_object_model ev = true \/ sdk_method ev <> None) as Hk
      by (right; destruct ev; try discriminate; simpl; discriminate).
    destruct (create_or_update_tail E name g kw ev Hin Hk) as (c & kw2 & Ht & ->).
    exact (proj2 (build_and_send_serialization E name g c kw2 ev e Ht) Hf Hs).
Qed.

Lemma serialization_failures_surfaced_witness :
  returned (availability_set_create_or_update env_bad_keyword
              testset testgroup eastus) =
    Return (VDict [(VStr "error",
                    VStr "The object model could not be built. (unexpected keyword argument)")]) /\
  returned (availability_set_create_or_update (env_with client_unserializable)
              testset testgroup eastus) =
    Return (VDict [(VStr "error",
                    VStr "The object model could not be parsed. (Unable to build a model)")]).
Proof.
  split.
  - apply (proj1 (serialization_failures_surfaced env_bad_keyword
                    testset testgroup eastus)
             (EvCreateObjectModel "compute" "AvailabilitySet" eastus
                (Raise bad_keyword))
             bad_keyword).
    + simpl. auto.
    + reflexivity.
    + reflexivity.
  - apply (proj2 (serialization_failures_surfaced
                    (env_with client_unserializable) testset testgroup eastus)
             (EvSdk AS_create_or_update
                [("resource_group_name", testgroup);
                 ("availability_set_name", testset);
                 ("parameters", VDict (as_dict (kwargs_model eastus)))]
                (Some unserializable))
             unserializable).
    + simpl. auto.
    + reflexivity.
    + reflexivity.
Defined.

(** ** Generalize *)

(** C7.  [virtual_machine_generalize] returns [True] when the SDK's
    [generalize] succeeds and [False] when it raises HttpResponseError;
    whatever it returns is one of the two booleans, never a resource
    mapping; and it waits on no poller: the call is synchronous. *)
Theorem generalize_returns_flag (E : Env) (name g : value) (kw : kwargs) :
  (forall compconn,
     get_client_answer E "compute" kw = Return compconn ->
     VirtualMachinesOperations.generalize (virtual_machines compconn) g name =
       Return tt ->
     returned (virtual_machine_generalize E name g kw) = Return (VBool true)) /\
  (forall compconn e,
     get_client_answer E "compute" kw = Return compconn ->
     VirtualMachinesOperations.generalize (virtual_machines compconn) g name =
       Raise e ->
     issubclass (exc_type e) HttpResponseError = true ->
     returned (virtual_machine_generalize E name g kw) = Return (VBool false)) /\
  (forall v,
     returned (virtual_machine_generalize E name g kw) = Return v ->
     v = VBool true \/ v = VBool false) /\
  (forall ev,
     In ev (trace (virtual_machine_generalize E name g kw)) ->
     is_poll ev = false).
Proof.
  unfold virtual_machine_generalize, get_client, sdk, call, bind, try_except.
  split; [| split; [| split]].
  - intros compconn -> Hg. simpl. rewrite Hg. reflexivity.
  - intros compconn [[] msg] -> Hg Hs; simpl; rewrite Hg; simpl in *;
      try discriminate; reflexivity.
  - simpl. outcomes; intros v [= <-]; auto.
  - simpl. outcomes; intros ev; pick_event; reflexivity.
Qed.

Lemma generalize_returns_flag_witness :
  returned (virtual_machine_generalize (env_with quiet_client)
              testvm testgroup []) = Return (VBool true) /\
  (forall ev,
     In ev (trace (virtual_machine_generalize (env_with quiet_client)
                     testvm testgroup [])) ->
     is_poll ev = false).
Proof.
  split.
  - apply (proj1 (generalize_returns_flag (env_with quiet_client)
                    testvm testgroup []) quiet_client); reflexivity.
  - exact (proj2 (proj2 (proj2 (generalize_returns_flag (env_with quiet_client)
                                  testvm testgroup [])))).
Defined.

(** ** Listings *)

Lemma find_nothing {A : Type} (f : A -> bool) (l : list A) :
  (forall x, In x l -> f x = false) -> find f l = None.
Proof.
  induction l as [| x l IH]; simpl; intros H; [reflexivity |].
  rewrite (H x (or_introl eq_refl)). apply IH. intros y Hy. apply H. now right.
Qed.

Lemma last_named_split (h : hkey) (pre post : list dict) (item : dict) :
  item_key item = Some h ->
  (forall later, In later post -> item_key later <> Some h) ->
  last_named h (pre ++ item :: post) = Some item.
Proof.
  intros Hk Hpost. unfold last_named.
  rewrite rev_app_distr. simpl. rewrite <- app_assoc, find_app.
  rewrite find_nothing.
  - simpl. unfold named. rewrite Hk.
    now rewrite (proj2 (hkey_eqb_eq h h) eq_refl).
  - intros x Hx. apply in_rev in Hx. specialize (Hpost x Hx).
    unfold named. destruct (item_key x) as [h' |]; [| reflexivity].
    destruct (hkey_eqb h' h) eqn:Heq; [| reflexivity].
    apply hkey_eqb_eq in Heq. congruence.
Qed.

Lemma listing_keyed (E : Env) (c : module_call) (ev : event)
  (items : list dict) :
  is_listing c = true ->
  In ev (trace (invoke E c)) ->
  listed ev = Some items ->
  Forall (fun item => item_key item <> None) items ->
  exists d,
    returned (invoke E c) = Return (VDict d) /\
    NoDup (dict_keys d) /\
    forall h, dict_lookup h d =
              match last_named h items with
              | Some item => Some (VDict item)
              | None => None
              end.
Proof.
  intros Hc Hin Hl Hall.
  destruct (key_by_name_spec items [] Hall) as (d & Hd & Hlook & Hnd).
  exists d. split; [| split].
  - eapply listing_success; eassumption.
  - apply Hnd. constructor.
  - exact Hlook.
Qed.

(** C8 (amended).  For every listing function and every successful SDK call
    whose items all carry a hashable "name", the returned value is a
    mapping that, for each item of the flattened paged sequence that no
    later item shares its name with, maps the item's "name" field to that
    item. *)
Theorem listing_keyed_by_name (E : Env) (c : module_call) (ev : event)
  (items : list dict) :
  is_listing c = true ->
  In ev (trace (invoke E c)) ->
  listed ev = Some items ->
  Forall (fun item => item_key item <> None) items ->
  exists d,
    returned (invoke E c) = Return (VDict d) /\
    forall pre item post h,
      items = pre ++ item :: post ->
      item_key item = Some h ->
      (forall later, In later post -> item_key later <> Some h) ->
      dict_lookup h d = Some (VDict item).
Proof.
  intros Hc Hin Hl Hall.
  destruct (listing_keyed E c ev items Hc Hin Hl Hall) as (d & Hv & _ & Hlook).
  exists d. split; [exact Hv |].
  intros pre item post h -> Hk Hpost.
  rewrite Hlook, (last_named_split h pre post item Hk Hpost). reflexivity.
Qed.

Lemma listing_keyed_by_name_witness :
  is_listing (VirtualMachinesListAll []) = true /\
  In (EvPagedObjectToList VM_list_all (Return [web_eastus; db_eastus; web_westus]))
     (trace (invoke (env_with client_same_names) (VirtualMachinesListAll []))) /\
  listed (EvPagedObjectToList VM_list_all
            (Return [web_eastus; db_eastus; web_westus])) =
    Some [web_eastus; db_eastus; web_westus] /\
  Forall (fun item => item_key item <> None) [web_eastus; db_eastus; web_westus] /\
  exists d,
    returned (invoke (env_with client_same_names) (VirtualMachinesListAll [])) =
      Return (VDict d) /\
    forall pre item post h,
      [web_eastus; db_eastus; web_westus] = pre ++ item :: post ->
      item_key item = Some h ->
      (forall later, In later post -> item_key later <> Some h) ->
      dict_lookup h d = Some (VDict item).
Proof.
  assert (In (EvPagedObjectToList VM_list_all
                (Return [web_eastus; db_eastus; web_westus]))
            (trace (invoke (env_with client_same_names)
                      (VirtualMachinesListAll [])))) as Hin
    by (simpl; auto).
  assert (Forall (fun item => item_key item <> None)
            [web_eastus; db_eastus; web_westus]) as Hall
    by (repeat constructor; discriminate).
  split; [reflexivity |]. split; [exact Hin |]. split; [reflexivity |].
  split; [exact Hall |].
  exact (listing_keyed_by_name (env_with client_same_names)
           (VirtualMachinesListAll []) _ _ eq_refl Hin eq_refl Hall).
Defined.

(** C8, as it stands, fails: of two machines named "web" the listing keeps
    the later one, so the name of the earlier one is not mapped to it. *)
Lemma listing_drops_earlier_namesake :
  ~ maps_every_item (env_with client_same_names) (VirtualMachinesListAll []).
Proof.
  intros H.
  destruct (H (EvPagedObjectToList VM_list_all
                 (Return [web_eastus; db_eastus; web_westus]))
              [web_eastus; db_eastus; web_westus])
    as (d & Hv & Hmap).
  - reflexivity.
  - simpl. auto.
  - reflexivity.
  - injection Hv as <-.
    specialize (Hmap web_eastus (HStr "web") (or_introl eq_refl) eq_refl).
    discriminate Hmap.
Qed.

(** C9.  In every listing function whose items all carry a hashable "name",
    the returned mapping has at most one entry per distinct name, and what
    it holds under a name is the last item of the flattened paged sequence
    with that name: a later item overwrites an earlier one of equal name. *)
Theorem listing_last_item_wins (E : Env) (c : module_call) (ev : event)
  (items : list dict) :
  is_listing c = true ->
  In ev (trace (invoke E c)) ->
  listed ev = Some items ->
  Forall (fun item => item_key item <> None) items ->
  exists d,
    returned (invoke E c) = Return (VDict d) /\
    NoDup (dict_keys d) /\
    forall h, dict_lookup h d =
              match last_named h items with
              | Some item => Some (VDict item)
              | None => None
              end.
Proof. apply listing_keyed. Qed.

Lemma listing_last_item_wins_witness :
  is_listing (VirtualMachinesListAll []) = true /\
  In (EvPagedObjectToList VM_list_all (Return [web_eastus; db_eastus; web_westus]))
     (trace (invoke (env_with client_same_names) (VirtualMachinesListAll []))) /\
  listed (EvPagedObjectToList VM_list_all
            (Return [web_eastus; db_eastus; web_westus])) =
    Some [web_eastus; db_eastus; web_westus] /\
  Forall (fun item => item_key item <> None) [web_eastus; db_eastus; web_westus] /\
  exists d,
    returned (invoke (env_with client_same_names) (VirtualMachinesListAll [])) =
      Return (VDict d) /\
    NoDup (dict_keys d) /\
    forall h, dict_lookup h d =
              match last_named h [web_eastus; db_eastus; web_westus] with
              | Some item => Some (VDict item)
              | None => None
              end.
Proof.
  assert (In (EvPagedObjectToList VM_list_all
                (Return [web_eastus; db_eastus; web_westus]))
            (trace (invoke (env_with client_same_names)
                      (VirtualMachinesListAll [])))) as Hin
    by (simpl; auto).
  assert (Forall (fun item => item_key item <> None)
            [web_eastus; db_eastus; web_westus]) as Hall
    by (repeat constructor; discriminate).
  split; [reflexivity |]. split; [exact Hin |]. split; [reflexivity |].
  split; [exact Hall |].
  exact (listing_last_item_wins (env_with client_same_names)
           (VirtualMachinesListAll []) _ _ eq_refl Hin eq_refl Hall).
Defined.

(** The listing of the sample subscription: one entry per name, "web" being
    the machine in "westus". *)
Example same_names_listing :
  returned (invoke (env_with client_same_names) (VirtualMachinesListAll [])) =
  Return (VDict [(VStr "web", VDict web_westus); (VStr "db", VDict db_eastus)]).
Proof. reflexivity. Qed.

(** ** Where exceptions come from *)

Ltac find_event :=
  solve [ eexists; split; [left; reflexivity | reflexivity]
        | eexists; split; [right; left; reflexivity | reflexivity]
        | eexists; split; [right; right; left; reflexivity | reflexivity]
        | eexists; split; [right; right; right; left; reflexivity | reflexivity]
        | eexists; split; [right; right; right; right; left; reflexivity | reflexivity] ].

Lemma key_by_name_raises (items : list dict) (acc : dict) (e : exc) :
  key_by_name items acc = Raise e ->
  exc_type e = KeyError \/ exc_type e = TypeError.
Proof.
  revert acc. induction items as [| item items IH]; intros acc; simpl.
  - discriminate.
  - unfold getitem, setitem.
    destruct (dict_lookup (HStr "name") item) as [name |].
    + destruct (py_hash name); [apply IH |]. intros [= <-]. now right.
    + intros [= <-]. now left.
Qed.

Lemma simple_provenance (E : Env) (c : module_call) (e : exc) :
  is_create_or_update c = false ->
  returned (invoke E c) = Raise e ->
  (exists ev, In ev (trace (invoke E c)) /\ failed ev = Some e) \/
  (subscripts c = true /\ (exc_type e = KeyError \/ exc_type e = TypeError)) \/
  (is_long_running c = true /\ exc_type e = AttributeError).
Proof.
  destruct c; try discriminate; intros _.
  all: unfold_module; simpl; outcomes_eq; intros [= <-];
    first [ left; find_event
          | right; left; split; [reflexivity |];
            match goal with
            | H : key_by_name _ _ = Raise _ |- _ =>
                apply key_by_name_raises in H; exact H
            end
          | right; right; split; reflexivity ].
Qed.

Lemma resolve_vm_names_provenance (E : Env) (names : list value) (g : value)
  (kw : kwargs) (acc : list value) (e : exc) :
  returned (resolve_vm_names E names g kw acc) = Raise e ->
  (exists ev, In ev (trace (resolve_vm_names E names g kw acc)) /\
              failed ev = Some e) \/
  exc_type e = KeyError.
Proof.
  revert acc. induction names as [| n names IH]; intros acc.
  - discriminate.
  - cbn [resolve_vm_names]. rewrite returned_bind, trace_bind.
    unfold salt_virtual_machine_get. rewrite returned_call, trace_call.
    destruct (virtual_machine_get_answer E n g kw) as [vm | x].
    2:{ intros [= <-]. left. eexists. split; [now left | reflexivity]. }
    rewrite returned_bind, trace_bind.
    destruct (dict_mem "error" vm); cbn [negb].
    + rewrite returned_ret, trace_ret. intros H.
      destruct (IH _ H) as [(ev & Hin & Hf) | Hk]; [left | now right].
      exists ev. split; [right; exact Hin | exact Hf].
    + rewrite returned_bind, trace_bind, returned_pure, trace_pure.
      unfold getitem. destruct (dict_lookup (HStr "id") vm) as [id |].
      * rewrite returned_ret, trace_ret. intros H.
        destruct (IH _ H) as [(ev & Hin & Hf) | Hk]; [left | now right].
        exists ev. split; [right; exact Hin | exact Hf].
      * intros [= <-]. now right.
Qed.

Lemma link_provenance (E : Env) (g : value) (kw : kwargs) (e : exc) :
  returned (link_virtual_machines E g kw) = Raise e ->
  (exists ev, In ev (trace (link_virtual_machines E g kw)) /\ failed ev = Some e) \/
  exc_type e = KeyError.
Proof.
  unfold link_virtual_machines.
  destruct (kw_get "virtual_machines" kw) as [[] |]; try discriminate.
  rewrite returned_bind, trace_bind. intros H.
  destruct (returned (resolve_vm_names E l g kw [])) as [a | x] eqn:Hr;
    [discriminate |].
  injection H as ->. rewrite app_nil_r.
  now apply resolve_vm_names_provenance.
Qed.

Lemma build_and_send_provenance (E : Env) (name g : value)
  (compconn : ComputeManagementClient) (kw : kwargs) (e : exc) :
  returned (build_and_send E name g compconn kw) = Raise e ->
  exists ev, In ev (trace (build_and_send E name g compconn kw)) /\
             failed ev = Some e.
Proof.
  unfold build_and_send, create_object_model, call, sdk, bind, try_except; simpl.
  outcomes; intros [= <-]; find_event.
Qed.

Lemma located_provenance (E : Env) (name g : value) (kw : kwargs) (e : exc) :
  returned (create_or_update_located E name g kw) = Raise e ->
  (exists ev, In ev (trace (create_or_update_located E name g kw)) /\
              failed ev = Some e) \/
  exc_type e = KeyError.
Proof.
  rewrite located_returned, located_trace.
  destruct (get_client_answer E "compute" kw) as [compconn | x].
  2:{ intros [= <-]. left. eexists. split; [now left | reflexivity]. }
  destruct (returned (link_virtual_machines E g kw)) as [kw2 | x] eqn:Hl.
  - intros H. apply build_and_send_provenance in H as (ev & Hin & Hf).
    left. exists ev. split; [| exact Hf]. right. apply in_or_app. now right.
  - intros [= <-]. apply link_provenance in Hl as [(ev & Hin & Hf) | Hk];
      [left | now right].
    exists ev. split; [| exact Hf]. right. apply in_or_app. now left.
Qed.

Lemma create_or_update_provenance (E : Env) (name g : value) (kw : kwargs)
  (e : exc) :
  returned (availability_set_create_or_update E name g kw) = Raise e ->
  (exists ev, In ev (trace (availability_set_create_or_update E name g kw)) /\
              failed ev = Some e) \/
  exc_type e = KeyError.
Proof.
  rewrite create_or_update_unfold.
  destruct (kw_mem "location" kw); [apply located_provenance |].
  destruct (resource_group_get_answer E g kw) as [props | x].
  2:{ intros [= <-]. left. eexists. split; [now left | reflexivity]. }
  destruct (dict_mem "error" props); [discriminate |].
  destruct (dict_lookup (HStr "location") props).
  2:{ intros [= <-]. now right. }
  cbn [returned trace fst snd]. intros H.
  apply located_provenance in H as [(ev & Hin & Hf) | Hk]; [left | now right].
  exists ev. split; [now right | exact Hf].
Qed.

(** X1.  An exception that leaves a module function was raised by one of the
    calls the function made outside itself; the only exceptions of the
    module's own making are the KeyError and TypeError of a subscript, in
    the listing functions and in [availability_set_create_or_update], and
    the AttributeError of [vm_result.as_dict()] in the long-running
    functions, when [result()] returned [None]. *)
Theorem exception_provenance (E : Env) (c : module_call) (e : exc) :
  returned (invoke E c) = Raise e ->
  (exists ev, In ev (trace (invoke E c)) /\ failed ev = Some e) \/
  (subscripts c = true /\ (exc_type e = KeyError \/ exc_type e = TypeError)) \/
  (is_long_running c = true /\ exc_type e = AttributeError).
Proof.
  destruct (is_create_or_update c) eqn:Hc; [| now apply simple_provenance].
  destruct c; try discriminate. intros H.
  apply create_or_update_provenance in H as [H | H];
    [now left | right; left; auto].
Qed.

Lemma exception_provenance_witness :
  returned (invoke (env_with client_restart_no_result)
              (VirtualMachineRestart testvm testgroup [])) = Raise no_as_dict /\
  ((exists ev,
      In ev (trace (invoke (env_with client_restart_no_result)
                      (VirtualMachineRestart testvm testgroup []))) /\
      failed ev = Some no_as_dict) \/
   (subscripts (VirtualMachineRestart testvm testgroup []) = true /\
    (exc_type no_as_dict = KeyError \/ exc_type no_as_dict = TypeError)) \/
   (is_long_running (VirtualMachineRestart testvm testgroup []) = true /\
    exc_type no_as_dict = AttributeError)).
Proof.
  split; [reflexivity |].
  exact (exception_provenance (env_with client_restart_no_result)
           (VirtualMachineRestart testvm testgroup []) no_as_dict eq_refl).
Defined.

(** ** The two halves of [availability_set_create_or_update] *)

Lemma located_split (E : Env) (name g : value) (kw : kwargs) :
  (exists compconn kw2 pre,
     get_client_answer E "compute" kw = Return compconn /\
     returned (link_virtual_machines E g kw) = Return kw2 /\
     trace (create_or_update_located E name g kw) =
       pre ++ trace (build_and_send E name g compconn kw2) /\
     returned (create_or_update_located E name g kw) =
       returned (build_and_send E name g compconn kw2) /\
     (forall ev, In ev pre -> is_preamble ev = true)) \/
  (forall ev, In ev (trace (create_or_update_located E name g kw)) ->
              is_preamble ev = true).
Proof.
  rewrite located_trace, located_returned.
  pose proof (link_virtual_machines_trace E g kw) as Hlink.
  destruct (get_client_answer E "compute" kw) as [compconn | x].
  2:{ right. intros ev [<- | []]. reflexivity. }
  destruct (returned (link_virtual_machines E g kw)) as [kw2 | x].
  - left. exists compconn, kw2,
      (EvGetClient "compute" kw None :: trace (link_virtual_machines E g kw)).
    repeat split; try reflexivity.
    intros ev [<- | H]; [reflexivity |].
    apply Hlink in H as (? & ? & ->). reflexivity.
  - right. intros ev [<- | H]; [reflexivity |]. rewrite app_nil_r in H.
    apply Hlink in H as (? & ? & ->). reflexivity.
Qed.

Lemma create_or_update_split (E : Env) (name g : value) (kw : kwargs) :
  (exists kw1 compconn kw2 pre,
     get_client_answer E "compute" kw1 = Return compconn /\
     returned (link_virtual_machines E g kw1) = Return kw2 /\
     trace (availability_set_create_or_update E name g kw) =
       pre ++ trace (build_and_send E name g compconn kw2) /\
     returned (availability_set_create_or_update E name g kw) =
       returned (build_and_send E name g compconn kw2) /\
     (forall ev, In ev pre -> is_preamble ev = true) /\
     (forall ev kw', In ev pre -> acquired ev = Some kw' -> kw' = kw1)) \/
  ((forall ev, In ev (trace (availability_set_create_or_update E name g kw)) ->
               is_preamble ev = true) /\
   forall v, returned (availability_set_create_or_update E name g kw) = Return v ->
             v = VBool false).
Proof.
  assert (forall kw1,
            (exists compconn kw2 pre,
               get_client_answer E "compute" kw1 = Return compconn /\
               returned (link_virtual_machines E g kw1) = Return kw2 /\
               trace (create_or_update_located E name g kw1) =
                 pre ++ trace (build_and_send E name g compconn kw2) /\
               returned (create_or_update_located E name g kw1) =
                 returned (build_and_send E name g compconn kw2) /\
               (forall ev, In ev pre -> is_preamble ev = true) /\
               (forall ev kw', In ev pre -> acquired ev = Some kw' -> kw' = kw1)) \/
            ((forall ev, In ev (trace (create_or_update_located E name g kw1)) ->
                         is_preamble ev = true) /\
             forall v, returned (create_or_update_located E name g kw1) <> Return v))
    as Hloc.
  { intros kw1. destruct (located_split E name g kw1)
      as [(c & kw2 & pre & Hc & Hl & Ht & Hr & Hp) | Hp].
    - left. exists c, kw2, pre. repeat split; try assumption.
      intros ev kw' Hin Ha.
      assert (In ev (trace (create_or_update_located E name g kw1))) as Hin'
        by (rewrite Ht; apply in_or_app; now left).
      now destruct (located_acquired E name g kw1 kw' ev Hin' Ha).
    - right. split; [exact Hp |]. intros v.
      rewrite located_returned.
      rewrite located_trace in Hp.
      destruct (get_client_answer E "compute" kw1) as [c | x]; [| discriminate].
      destruct (returned (link_virtual_machines E g kw1)) as [kw2 | x];
        [| discriminate].
      exfalso.
      assert (exists ev, In ev (trace (build_and_send E name g c kw2)) /\
                         is_preamble ev = false) as (ev & Hin & Hev).
      { exists (EvCreateObjectModel "compute" "AvailabilitySet" kw2
                  (create_object_model_answer E "compute" "AvailabilitySet" kw2)).
        split; [| reflexivity].
        assert (In (EvCreateObjectModel "compute" "AvailabilitySet" kw2
                      (create_object_model_answer E "compute" "AvailabilitySet" kw2))
                  (filter is_create_object_model
                     (trace (build_and_send E name g c kw2)))) as H
          by (rewrite build_and_send_models; now left).
        apply filter_In in H. tauto. }
      rewrite Hp in Hev; [discriminate |].
      right. apply in_or_app. now right. }
  rewrite create_or_update_unfold.
  destruct (kw_mem "location" kw).
  { destruct (Hloc kw) as [(c & kw2 & pre & H) | [Hp Hv]].
    - left. exists kw, c, kw2, pre. exact H.
    - right. split; [exact Hp |]. intros v H. now destruct (Hv v). }
  destruct (resource_group_get_answer E g kw) as [props | x].
  2:{ right. split; [intros ev [<- | []]; reflexivity | discriminate]. }
  destruct (dict_mem "error" props).
  { right. split; [intros ev [<- | [<- | []]]; reflexivity |].
    now intros v [= <-]. }
  destruct (dict_lookup (HStr "location") props) as [location |].
  2:{ right. split; [intros ev [<- | []]; reflexivity | discriminate]. }
  cbn [returned trace fst snd].
  destruct (Hloc (kw_set "location" location kw))
    as [(c & kw2 & pre & Hc & Hl & Ht & Hr & Hp & Ha) | [Hp Hv]].
  - left. exists (kw_set "location" location kw), c, kw2,
      (EvResourceGroupGet g kw (Return props) :: pre).
    repeat split; try assumption.
    + rewrite Ht. reflexivity.
    + intros ev [<- | H]; [reflexivity | now apply Hp].
    + intros ev kw' [<- | H]; [discriminate | now apply Ha].
  - right. split.
    + intros ev [<- | H]; [reflexivity | now apply Hp].
    + intros v H. now destruct (Hv v).
Qed.

(** ** When the logger is invoked *)

Ltac find_raise :=
  solve [ do 2 eexists; split; [left; reflexivity | split; [reflexivity | split; reflexivity]]
        | do 2 eexists; split; [right; left; reflexivity | split; [reflexivity | split; reflexivity]]
        | do 2 eexists; split; [right; right; left; reflexivity | split; [reflexivity | split; reflexivity]]
        | do 2 eexists; split; [right; right; right; left; reflexivity | split; [reflexivity | split; reflexivity]] ].

Lemma preamble_quiet (ev : event) :
  is_preamble ev = true ->
  logged ev = None /\ sdk_raised ev = None /\ event_op ev = None /\
  model_failure ev = None /\ is_log_cloud_error ev = false /\
  is_sdk_call ev = false /\ is_create_object_model ev = false.
Proof. destruct ev; try discriminate; repeat split. Qed.

Lemma build_and_send_logged (E : Env) (name g : value)
  (compconn : ComputeManagementClient) (kw : kwargs) (ev0 : event)
  (message : string) :
  In ev0 (trace (build_and_send E name g compconn kw)) ->
  logged ev0 = Some message ->
  exists ev e,
    In ev (trace (build_and_send E name g compconn kw)) /\
    sdk_raised ev = Some e /\
    issubclass (exc_type e) HttpResponseError = true /\
    message = exc_str e.
Proof.
  unfold build_and_send, create_object_model, call, sdk, bind, try_except; simpl.
  outcomes; pick_event; intros [= <-]; find_raise.
Qed.

Lemma simple_logged (E : Env) (c : module_call) (ev0 : event)
  (message : string) :
  is_create_or_update c = false ->
  In ev0 (trace (invoke E c)) ->
  logged ev0 = Some message ->
  exists ev e,
    In ev (trace (invoke E c)) /\
    sdk_raised ev = Some e /\
    issubclass (exc_type e) HttpResponseError = true /\
    message = exc_str e.
Proof.
  destruct c; try discriminate; intros _.
  all: unfold_module; simpl; outcomes_eq; pick_event; intros [= <-];
    first [ find_raise
          | match goal with
            | H : key_by_name _ _ = Raise _ |- _ =>
                apply key_by_name_raises in H; destruct H; discriminate
            end ].
Qed.

(** X2.  The shared cloud-error logger is invoked only for an
    HttpResponseError, or a subclass, that the SDK call of the function
    raised, and the message it gets is that exception's string form. *)
Theorem logger_only_on_http_error (E : Env) (c : module_call) (ev0 : event)
  (message : string) :
  In ev0 (trace (invoke E c)) ->
  logged ev0 = Some message ->
  exists ev e,
    In ev (trace (invoke E c)) /\
    sdk_raised ev = Some e /\
    issubclass (exc_type e) HttpResponseError = true /\
    message = exc_str e.
Proof.
  destruct (is_create_or_update c) eqn:Hc; [| now apply simple_logged].
  destruct c; try discriminate. cbn [invoke].
  destruct (create_or_update_split E name resource_group kw)
    as [(kw1 & cc & kw2 & pre & _ & _ & Ht & _ & Hp & _) | [Hp _]].
  - rewrite Ht. intros Hin Hl. apply in_app_or in Hin as [Hin | Hin].
    + apply Hp, preamble_quiet in Hin as [Hq _]. congruence.
    + destruct (build_and_send_logged _ _ _ _ _ _ _ Hin Hl)
        as (ev & e & Hev & H).
      exists ev, e. split; [apply in_or_app; now right | exact H].
  - intros Hin Hl. apply Hp, preamble_quiet in Hin as [Hq _]. congruence.
Qed.

Lemma logger_only_on_http_error_witness :
  In (EvLogCloudError "compute" "(Conflict) operation not allowed" [])
     (trace (invoke (env_with client_delete_fails)
               (AvailabilitySetDelete testset testgroup []))) /\
  logged (EvLogCloudError "compute" "(Conflict) operation not allowed" []) =
    Some "(Conflict) operation not allowed" /\
  exists ev e,
    In ev (trace (invoke (env_with client_delete_fails)
                    (AvailabilitySetDelete testset testgroup []))) /\
    sdk_raised ev = Some e /\
    issubclass (exc_type e) HttpResponseError = true /\
    "(Conflict) operation not allowed" = exc_str e.
Proof.
  assert (In (EvLogCloudError "compute" "(Conflict) operation not allowed" [])
            (trace (invoke (env_with client_delete_fails)
                      (AvailabilitySetDelete testset testgroup [])))) as Hin
    by (simpl; auto).
  split; [exact Hin |]. split; [reflexivity |].
  exact (logger_only_on_http_error (env_with client_delete_fails)
           (AvailabilitySetDelete testset testgroup []) _ _ Hin eq_refl).
Defined.

Lemma build_and_send_unhandled (E : Env) (name g : value)
  (compconn : ComputeManagementClient) (kw : kwargs) (ev : event) (e : exc) :
  In ev (trace (build_and_send E name g compconn kw)) ->
  sdk_raised ev = Some e ->
  issubclass (exc_type e) HttpResponseError = false ->
  issubclass (exc_type e) SerializationError = false ->
  returned (build_and_send E name g compconn kw) = Raise e /\
  filter is_log_cloud_error (trace (build_and_send E name g compconn kw)) = [].
Proof.
  unfold build_and_send, create_object_model, call, sdk, bind, try_except; simpl.
  outcomes; pick_event; intros [= <-]; simpl; intros; try discriminate; auto.
Qed.

Lemma simple_unhandled (E : Env) (c : module_call) (ev : event) (e : exc) :
  is_create_or_update c = false ->
  In ev (trace (invoke E c)) ->
  sdk_raised ev = Some e ->
  issubclass (exc_type e) HttpResponseError = false ->
  returned (invoke E c) = Raise e /\
  filter is_log_cloud_error (trace (invoke E c)) = [].
Proof.
  destruct c; try discriminate; intros _.
  all: unfold_module; simpl; outcomes; pick_event; intros [= <-]; simpl;
    intros; try discriminate; auto.
Qed.

(** X3.  An exception of the SDK call that is not an HttpResponseError
    leaves the function as it is and nothing is logged; the one exception
    to this is the SerializationError that
    [availability_set_create_or_update] handles. *)
Theorem other_sdk_exceptions_propagate (E : Env) (c : module_call) (ev : event)
  (e : exc) :
  In ev (trace (invoke E c)) ->
  sdk_raised ev = Some e ->
  issubclass (exc_type e) HttpResponseError = false ->
  (is_create_or_update c = true ->
   issubclass (exc_type e) SerializationError = false) ->
  returned (invoke E c) = Raise e /\
  filter is_log_cloud_error (trace (invoke E c)) = [].
Proof.
  destruct (is_create_or_update c) eqn:Hc.
  2:{ intros Hin Hr Hh _. now apply simple_unhandled with ev. }
  destruct c; try discriminate. cbn [invoke]. intros Hin Hr Hh Hs.
  specialize (Hs eq_refl).
  destruct (create_or_update_split E name resource_group kw)
    as [(kw1 & cc & kw2 & pre & _ & _ & Ht & Hv & Hp & _) | [Hp _]].
  - rewrite Ht in Hin |- *. rewrite Hv.
    apply in_app_or in Hin as [Hin | Hin].
    + apply Hp, preamble_quiet in Hin as (_ & Hq & _). congruence.
    + destruct (build_and_send_unhandled _ _ _ _ _ _ _ Hin Hr Hh Hs) as [-> Hf].
      split; [reflexivity |]. rewrite filter_app, Hf, app_nil_r.
      apply filter_nothing. intros x Hx. now apply Hp, preamble_quiet in Hx.
  - apply Hp, preamble_quiet in Hin as (_ & Hq & _). congruence.
Qed.

Lemma other_sdk_exceptions_propagate_witness :
  In (EvSdk VM_get
        [("resource_group_name", testgroup); ("vm_name", testvm);
         ("expand", VNone)]
        (Some unserializable))
     (trace (invoke (env_with client_vm_get_unserializable)
               (VirtualMachineGet testvm testgroup []))) /\
  issubclass (exc_type unserializable) HttpResponseError = false /\
  returned (invoke (env_with client_vm_get_unserializable)
              (VirtualMachineGet testvm testgroup [])) = Raise unserializable /\
  filter is_log_cloud_error
    (trace (invoke (env_with client_vm_get_unserializable)
              (VirtualMachineGet testvm testgroup []))) = [].
Proof.
  assert (In (EvSdk VM_get
                [("resource_group_name", testgroup); ("vm_name", testvm);
                 ("expand", VNone)]
                (Some unserializable))
            (trace (invoke (env_with client_vm_get_unserializable)
                      (VirtualMachineGet testvm testgroup [])))) as Hin
    by (simpl; auto).
  split; [exact Hin |]. split; [reflexivity |].
  apply (other_sdk_exceptions_propagate (env_with client_vm_get_unserializable)
           (VirtualMachineGet testvm testgroup []) _ unserializable Hin
           eq_refl eq_refl).
  discriminate.
Defined.

(** ** One client, one SDK method *)

Lemma build_and_send_kinds (E : Env) (name g : value)
  (compconn : ComputeManagementClient) (kw : kwargs) :
  (forall ev, In ev (trace (build_and_send E name g compconn kw)) ->
              is_get_client ev = false /\
              forall op, event_op ev = Some op -> op = AS_create_or_update) /\
  List.length (filter is_sdk_call (trace (build_and_send E name g compconn kw))) <= 1.
Proof.
  unfold build_and_send, create_object_model, call, sdk, bind, try_except; simpl.
  outcomes; (split; [intros ev; pick_event; split; try reflexivity;
                     intros op [= <-]; reflexivity
                    | simpl; auto]).
Qed.

Lemma preamble_no_op (ev : event) :
  is_preamble ev = true -> event_op ev = None /\ is_sdk_call ev = false.
Proof. destruct ev; try discriminate; split; reflexivity. Qed.

Lemma simple_one_method (E : Env) (c : module_call) :
  is_create_or_update c = false ->
  (forall ev op, In ev (trace (invoke E c)) ->
                 event_op ev = Some op -> op = wrapped_op c) /\
  List.length (filter is_sdk_call (trace (invoke E c))) <= 1 /\
  exists x rest,
    trace (invoke E c) = EvGetClient "compute" (call_kwargs c) x :: rest /\
    forall ev, In ev rest ->
               is_preamble ev = false /\ is_create_object_model ev = false.
Proof.
  destruct c; try discriminate; intros _.
  all: unfold_module; simpl; outcomes;
    (split; [intros ev op; pick_event; intros [= <-]; reflexivity |]);
    (split; [simpl; auto |]);
    do 2 eexists; (split; [reflexivity |]);
    intros ev; pick_event; split; reflexivity.
Qed.

(** X4.  Every function other than [availability_set_create_or_update]
    begins by asking the client factory for the "compute" client with the
    keyword arguments it was called with, and after that it calls neither
    the factory again, nor a function of the host's table, nor the
    object-model builder. *)
Theorem client_acquired_first (E : Env) (c : module_call) :
  is_create_or_update c = false ->
  exists x rest,
    trace (invoke E c) = EvGetClient "compute" (call_kwargs c) x :: rest /\
    forall ev, In ev rest ->
               is_preamble ev = false /\ is_create_object_model ev = false.
Proof. intros Hc. exact (proj2 (proj2 (simple_one_method E c Hc))). Qed.

Lemma client_acquired_first_witness :
  is_create_or_update (VirtualMachineRestart testvm testgroup eastus) = false /\
  exists x rest,
    trace (invoke (env_with quiet_client)
             (VirtualMachineRestart testvm testgroup eastus)) =
      EvGetClient "compute"
        (call_kwargs (VirtualMachineRestart testvm testgroup eastus)) x :: rest /\
    forall ev, In ev rest ->
               is_preamble ev = false /\ is_create_object_model ev = false.
Proof.
  split; [reflexivity |].
  exact (client_acquired_first (env_with quiet_client)
           (VirtualMachineRestart testvm testgroup eastus) eq_refl).
Defined.

(** X5.  A function calls no SDK method but the one it wraps, and calls it
    at most once: every method call, poller step and draining of a paged
    object in its trace belongs to that method. *)
Theorem only_the_wrapped_method (E : Env) (c : module_call) :
  (forall ev op, In ev (trace (invoke E c)) ->
                 event_op ev = Some op -> op = wrapped_op c) /\
  List.length (filter is_sdk_call (trace (invoke E c))) <= 1.
Proof.
  destruct (is_create_or_update c) eqn:Hc.
  2:{ destruct (simple_one_method E c Hc) as (H1 & H2 & _). now split. }
  destruct c; try discriminate. cbn [invoke wrapped_op].
  destruct (create_or_update_split E name resource_group kw)
    as [(kw1 & cc & kw2 & pre & _ & _ & Ht & _ & Hp & _) | [Hp _]].
  - rewrite Ht.
    destruct (build_and_send_kinds E name resource_group cc kw2) as [Hk Hl].
    split.
    + intros ev op Hin Hop. apply in_app_or in Hin as [Hin | Hin].
      * apply Hp, preamble_no_op in Hin as [Hq _]. congruence.
      * now apply (proj2 (Hk ev Hin)).
    + rewrite filter_app, (filter_nothing is_sdk_call pre); [exact Hl |].
      intros x Hx. now apply Hp, preamble_no_op in Hx.
  - split.
    + intros ev op Hin Hop. apply Hp, preamble_no_op in Hin as [Hq _]. congruence.
    + rewrite filter_nothing; [simpl; auto |].
      intros x Hx. now apply Hp, preamble_no_op in Hx.
Qed.

Lemma only_the_wrapped_method_witness :
  (forall ev op,
     In ev (trace (invoke (env_with client_restarts)
                     (VirtualMachineRestart testvm testgroup []))) ->
     event_op ev = Some op -> op = VM_begin_restart) /\
  List.length
    (filter is_sdk_call
       (trace (invoke (env_with client_restarts)
                 (VirtualMachineRestart testvm testgroup [])))) <= 1.
Proof.
  exact (only_the_wrapped_method (env_with client_restarts)
           (VirtualMachineRestart testvm testgroup [])).
Defined.

(** ** Long-running operations *)

(** X6.  When the factory returns a client, the SDK's [begin_*] method
    returns a poller, [wait()] returns and [result()] returns a model, a
    long-running function returns the [as_dict()] form of that model and
    logs nothing. *)
Theorem long_running_result (E : Env) (c : module_call)
  (compconn : ComputeManagementClient) (vm : lro_poller) (m : sdk_model) :
  get_client_answer E "compute" (call_kwargs c) = Return compconn ->
  begun compconn c = Some (Return vm) ->
  wait vm = Return tt ->
  result vm = Return (Some m) ->
  returned (invoke E c) = Return (VDict (as_dict m)) /\
  filter is_log_cloud_error (trace (invoke E c)) = [].
Proof.
  destruct c; try discriminate.
  all: unfold_module; simpl; intros -> [= ->]; simpl; intros -> ->; simpl;
    split; reflexivity.
Qed.

Lemma long_running_result_witness :
  get_client_answer (env_with client_restarts) "compute"
    (call_kwargs (VirtualMachineRestart testvm testgroup [])) =
    Return client_restarts /\
  begun client_restarts (VirtualMachineRestart testvm testgroup []) =
    Some (Return (mkPoller (Return tt) (Return (Some restarted)))) /\
  returned (invoke (env_with client_restarts)
              (VirtualMachineRestart testvm testgroup [])) =
    Return (VDict (as_dict restarted)) /\
  filter is_log_cloud_error
    (trace (invoke (env_with client_restarts)
              (VirtualMachineRestart testvm testgroup []))) = [].
Proof.
  split; [reflexivity |]. split; [reflexivity |].
  exact (long_running_result (env_with client_restarts)
           (VirtualMachineRestart testvm testgroup []) client_restarts
           (mkPoller (Return tt) (Return (Some restarted))) restarted
           eq_refl eq_refl eq_refl eq_refl).
Defined.

(** X17.  When the factory returns a client, the SDK's [begin_*] method
    returns a poller, [wait()] returns and [result()] returns [None], the
    AttributeError of [vm_result.as_dict()] leaves the long-running
    function: the handler for HttpResponseError does not catch it and
    nothing is logged. *)
Theorem long_running_without_result (E : Env) (c : module_call)
  (compconn : ComputeManagementClient) (vm : lro_poller) :
  get_client_answer E "compute" (call_kwargs c) = Return compconn ->
  begun compconn c = Some (Return vm) ->
  wait vm = Return tt ->
  result vm = Return None ->
  returned (invoke E c) =
    Raise (mkExc AttributeError "'NoneType' object has no attribute 'as_dict'") /\
  filter is_log_cloud_error (trace (invoke E c)) = [].
Proof.
  destruct c; try discriminate.
  all: unfold_module; simpl; intros -> [= ->]; simpl; intros -> ->; simpl;
    split; reflexivity.
Qed.

Lemma long_running_without_result_witness :
  get_client_answer (env_with client_restart_no_result) "compute"
    (call_kwargs (VirtualMachineRestart testvm testgroup [])) =
    Return client_restart_no_result /\
  begun client_restart_no_result (VirtualMachineRestart testvm testgroup []) =
    Some (Return (mkPoller (Return tt) (Return None))) /\
  returned (invoke (env_with client_restart_no_result)
              (VirtualMachineRestart testvm testgroup [])) =
    Raise (mkExc AttributeError "'NoneType' object has no attribute 'as_dict'") /\
  filter is_log_cloud_error
    (trace (invoke (env_with client_restart_no_result)
              (VirtualMachineRestart testvm testgroup []))) = [].
Proof.
  split; [reflexivity |]. split; [reflexivity |].
  exact (long_running_without_result (env_with client_restart_no_result)
           (VirtualMachineRestart testvm testgroup []) client_restart_no_result
           (mkPoller (Return tt) (Return None)) eq_refl eq_refl eq_refl eq_refl).
Defined.

Lemma build_and_send_no_poll (E : Env) (name g : value)
  (compconn : ComputeManagementClient) (kw : kwargs) (ev : event) :
  In ev (trace (build_and_send E name g compconn kw)) -> is_poll ev = false.
Proof.
  unfold build_and_send, create_object_model, call, sdk, bind, try_except; simpl.
  outcomes; pick_event; reflexivity.
Qed.

(** X7.  The steps of a long-running operation come in order: [wait()] is
    called only on a poller that the SDK method returned, and [result()]
    only after [wait()] returned; a failed [wait()] leaves the result
    unread. *)
Theorem poller_steps_in_order (E : Env) (c : module_call) (ev : event) :
  In ev (trace (invoke E c)) ->
  (is_wait ev = true ->
   exists a, In a (trace (invoke E c)) /\ answered a = true) /\
  (is_result ev = true ->
   exists w, In w (trace (invoke E c)) /\ waited w = true).
Proof.
  destruct (is_create_or_update c) eqn:Hc.
  - destruct c; try discriminate. cbn [invoke]. intros Hin.
    assert (is_poll ev = false) as Hpoll.
    { destruct (create_or_update_split E name resource_group kw)
        as [(kw1 & cc & kw2 & pre & _ & _ & Ht & _ & Hp & _) | [Hp _]].
      - rewrite Ht in Hin. apply in_app_or in Hin as [Hin | Hin].
        + apply Hp in Hin. now destruct ev.
        + now apply build_and_send_no_poll in Hin.
      - apply Hp in Hin. now destruct ev. }
    destruct ev; try discriminate; split; discriminate.
  - revert ev. destruct c; try discriminate.
    all: unfold_module; simpl; outcomes; intros ev; pick_event;
      (split; [try discriminate | try discriminate]); intros _;
      first [ eexists; split; [right; left; reflexivity | reflexivity]
            | eexists; split; [right; right; left; reflexivity | reflexivity] ].
Qed.

Lemma poller_steps_in_order_witness :
  In (EvResult VM_begin_restart None)
     (trace (invoke (env_with client_restarts)
               (VirtualMachineRestart testvm testgroup []))) /\
  exists w,
    In w (trace (invoke (env_with client_restarts)
                   (VirtualMachineRestart testvm testgroup []))) /\
    waited w = true.
Proof.
  assert (In (EvResult VM_begin_restart None)
            (trace (invoke (env_with client_restarts)
                      (VirtualMachineRestart testvm testgroup [])))) as Hin
    by (simpl; auto).
  split; [exact Hin |].
  exact (proj2 (poller_steps_in_order (env_with client_restarts)
                  (VirtualMachineRestart testvm testgroup []) _ Hin) eq_refl).
Defined.

(** ** The boolean functions *)

(** X8.  [availability_set_delete] and [virtual_machine_generalize] return
    [True] exactly when the SDK method returned, and whatever they return
    is one of the two booleans. *)
Theorem flag_tells_sdk_success (E : Env) (c : module_call) :
  returns_flag c = true ->
  (returned (invoke E c) = Return (VBool true) <->
   exists ev, In ev (trace (invoke E c)) /\ answered ev = true) /\
  (forall v, returned (invoke E c) = Return v ->
             v = VBool true \/ v = VBool false).
Proof.
  destruct c; try discriminate; intros _.
  all: unfold_module; simpl; outcomes;
    (split;
     [ split;
       [ intros H; try discriminate H;
         eexists; (split; [right; left; reflexivity | reflexivity])
       | intros (ev & Hin & Ha); revert Ha; revert Hin; pick_event;
         try reflexivity ]
     | intros v [= <-]; auto ]).
Qed.

Lemma flag_tells_sdk_success_witness :
  returns_flag (AvailabilitySetDelete testset testgroup []) = true /\
  (returned (invoke (env_with quiet_client)
               (AvailabilitySetDelete testset testgroup [])) =
     Return (VBool true) <->
   exists ev,
     In ev (trace (invoke (env_with quiet_client)
                     (AvailabilitySetDelete testset testgroup []))) /\
     answered ev = true) /\
  (forall v,
     returned (invoke (env_with quiet_client)
                 (AvailabilitySetDelete testset testgroup [])) = Return v ->
     v = VBool true \/ v = VBool false).
Proof.
  split; [reflexivity |].
  exact (flag_tells_sdk_success (env_with quiet_client)
           (AvailabilitySetDelete testset testgroup []) eq_refl).
Defined.

(** ** Edges of [availability_set_create_or_update] *)

(** X9.  A call of [availability_set_create_or_update] that has a
    "location" makes no resource-group lookup: it begins with the client
    factory, called with the keyword arguments as they came. *)
Theorem located_call_skips_lookup (E : Env) (name g : value) (kw : kwargs) :
  kw_mem "location" kw = true ->
  filter is_resource_group_get
    (trace (availability_set_create_or_update E name g kw)) = [] /\
  exists rest,
    trace (availability_set_create_or_update E name g kw) =
      EvGetClient "compute" kw (raised (get_client_answer E "compute" kw)) :: rest.
Proof.
  intros Hloc. rewrite create_or_update_unfold, Hloc. split.
  - apply filter_nothing. intros ev. apply located_events.
  - rewrite located_trace. eexists. reflexivity.
Qed.

Lemma located_call_skips_lookup_witness :
  kw_mem "location" eastus = true /\
  filter is_resource_group_get
    (trace (availability_set_create_or_update (env_with quiet_client)
              testset testgroup eastus)) = [] /\
  exists rest,
    trace (availability_set_create_or_update (env_with quiet_client)
             testset testgroup eastus) =
      EvGetClient "compute" eastus
        (raised (get_client_answer (env_with quiet_client) "compute" eastus))
      :: rest.
Proof.
  split; [reflexivity |].
  exact (located_call_skips_lookup (env_with quiet_client) testset testgroup
           eastus eq_refl).
Defined.

(** X10.  When the resource-group lookup answers a mapping that has neither
    "error" nor "location", [rg_props["location"]] raises KeyError: the
    exception leaves [availability_set_create_or_update] before the client
    factory or anything else is called. *)
Theorem location_key_missing (E : Env) (name g : value) (kw : kwargs)
  (rg_props : dict) :
  kw_mem "location" kw = false ->
  resource_group_get_answer E g kw = Return rg_props ->
  dict_mem "error" rg_props = false ->
  dict_mem "location" rg_props = false ->
  availability_set_create_or_update E name g kw =
    (Raise (mkExc KeyError "'location'"),
     [EvResourceGroupGet g kw (Return rg_props)]).
Proof.
  intros Hloc Hrg Herr Hkey.
  rewrite create_or_update_unfold, Hloc, Hrg, Herr.
  unfold dict_mem in Hkey.
  destruct (dict_lookup (HStr "location") rg_props); [discriminate | reflexivity].
Qed.

Lemma location_key_missing_witness :
  kw_mem "location" [] = false /\
  resource_group_get_answer env_no_location testgroup [] =
    Return [(VStr "name", VStr "testgroup")] /\
  dict_mem "error" [(VStr "name", VStr "testgroup")] = false /\
  dict_mem "location" [(VStr "name", VStr "testgroup")] = false /\
  availability_set_create_or_update env_no_location testset testgroup [] =
    (Raise (mkExc KeyError "'location'"),
     [EvResourceGroupGet testgroup [] (Return [(VStr "name", VStr "testgroup")])]).
Proof.
  repeat (split; [reflexivity |]).
  exact (location_key_missing env_no_location testset testgroup [] _
           eq_refl eq_refl eq_refl eq_refl).
Defined.

Lemma resolve_vm_names_break (E : Env) (g : value) (kw : kwargs)
  (pre post : list value) (n : value) (e : exc) (acc : list value) :
  Forall (lookup_answered E g kw) pre ->
  lookup_breaks E g kw n = Some e ->
  resolve_vm_names E (pre ++ n :: post) g kw acc =
    (Raise e,
     map (fun n => EvVirtualMachineGet n g kw (virtual_machine_get_answer E n g kw))
       (pre ++ [n])).
Proof.
  intros Hall Hbreak. revert acc.
  induction Hall as [| p pre (vm & Hvm & Hkeys) _ IH]; intros acc.
  - cbn [app resolve_vm_names map].
    unfold salt_virtual_machine_get, call. unfold lookup_breaks in Hbreak.
    destruct (virtual_machine_get_answer E n g kw) as [vm | x].
    + unfold bind at 1. destruct (dict_mem "error" vm); [discriminate |].
      cbn [negb]. unfold getitem, pure, bind at 1 2. unfold dict_mem in Hbreak.
      destruct (dict_lookup (HStr "id") vm); [discriminate |].
      injection Hbreak as <-. reflexivity.
    + injection Hbreak as <-. reflexivity.
  - cbn [app resolve_vm_names map].
    unfold salt_virtual_machine_get, call. rewrite Hvm. unfold bind at 1.
    destruct (dict_mem "error" vm) eqn:Herr; cbn [negb].
    + unfold ret, bind at 1. rewrite IH. reflexivity.
    + destruct Hkeys as [? | Hid]; [discriminate |].
      unfold dict_mem in Hid. unfold getitem, pure, bind at 1 2.
      destruct (dict_lookup (HStr "id") vm) as [id |]; [| discriminate].
      unfold ret. rewrite IH. reflexivity.
Qed.

Lemma located_link_failure (E : Env) (name g : value) (kw kw1 : kwargs)
  (ev : event) (e : exc) :
  In ev (trace (create_or_update_located E name g kw)) ->
  acquired ev = Some kw1 ->
  returned (link_virtual_machines E g kw1) = Raise e ->
  returned (create_or_update_located E name g kw) = Raise e /\
  filter is_create_object_model
    (trace (create_or_update_located E name g kw)) = [] /\
  filter is_sdk_call (trace (create_or_update_located E name g kw)) = [].
Proof.
  intros Hin Ha. destruct (located_acquired E name g kw kw1 ev Hin Ha) as (-> & _).
  revert Hin. rewrite located_trace, located_returned.
  pose proof (link_virtual_machines_trace E g kw) as Hlink.
  destruct (get_client_answer E "compute" kw) as [compconn | x].
  2:{ intros [<- | []]. discriminate. }
  intros _ ->. rewrite app_nil_r. simpl. repeat split.
  - apply filter_nothing. intros x Hx. apply Hlink in Hx as (? & ? & ->). reflexivity.
  - apply filter_nothing. intros x Hx. apply Hlink in Hx as (? & ? & ->). reflexivity.
Qed.

Lemma create_or_update_link_failure (E : Env) (name g : value)
  (kw kw1 : kwargs) (ev : event) (e : exc) :
  In ev (trace (availability_set_create_or_update E name g kw)) ->
  acquired ev = Some kw1 ->
  returned (link_virtual_machines E g kw1) = Raise e ->
  returned (availability_set_create_or_update E name g kw) = Raise e /\
  filter is_create_object_model
    (trace (availability_set_create_or_update E name g kw)) = [] /\
  filter is_sdk_call (trace (availability_set_create_or_update E name g kw)) = [].
Proof.
  rewrite create_or_update_unfold.
  destruct (kw_mem "location" kw); [apply located_link_failure |].
  destruct (resource_group_get_answer E g kw) as [props | x]; [| pick_event].
  destruct (dict_mem "error" props); [pick_event |].
  destruct (dict_lookup (HStr "location") props) as [location |]; [| pick_event].
  cbn [returned trace fst snd]. intros [<- | H]; [discriminate |]. intros Ha Hl.
  exact (located_link_failure _ _ _ _ _ _ _ H Ha Hl).
Qed.

(** X11.  In [availability_set_create_or_update], the first name of the
    "virtual_machines" list whose lookup raises, or answers a mapping with
    neither "error" nor "id", stops the call: the exception leaves the
    function, the names after it are not looked up, and neither the
    object-model builder nor the SDK is called. *)
Theorem broken_lookup_stops_the_call (E : Env) (name g : value)
  (kw kw1 : kwargs) (pre post : list value) (n : value) (e : exc) :
  kw_get "virtual_machines" kw = Some (VList (pre ++ n :: post)) ->
  In (EvGetClient "compute" kw1 None)
     (trace (availability_set_create_or_update E name g kw)) ->
  Forall (lookup_answered E g kw1) pre ->
  lookup_breaks E g kw1 n = Some e ->
  returned (availability_set_create_or_update E name g kw) = Raise e /\
  filter is_virtual_machine_get
    (trace (availability_set_create_or_update E name g kw)) =
    map (fun n => EvVirtualMachineGet n g kw1 (virtual_machine_get_answer E n g kw1))
      (pre ++ [n]) /\
  filter is_create_object_model
    (trace (availability_set_create_or_update E name g kw)) = [] /\
  filter is_sdk_call (trace (availability_set_create_or_update E name g kw)) = [].
Proof.
  intros Hvm Hin Hall Hbreak.
  destruct (create_or_update_acquired E name g kw kw1 _ Hin eq_refl)
    as (Hsame & Hlook & _).
  assert (kw_get "virtual_machines" kw1 = Some (VList (pre ++ n :: post))) as Hvm1
    by (rewrite Hsame; [exact Hvm | discriminate]).
  assert (link_virtual_machines E g kw1 =
            (Raise e,
             map (fun n => EvVirtualMachineGet n g kw1
                             (virtual_machine_get_answer E n g kw1))
               (pre ++ [n]))) as Hlink.
  { unfold link_virtual_machines. rewrite Hvm1.
    rewrite (resolve_vm_names_break E g kw1 pre post n e [] Hall Hbreak).
    reflexivity. }
  destruct (create_or_update_link_failure E name g kw kw1 _ e Hin eq_refl)
    as (Hr & Hm & Hs).
  { rewrite Hlink. reflexivity. }
  split; [exact Hr |]. split; [| now split].
  rewrite Hlook, Hlink. reflexivity.
Qed.

Lemma broken_lookup_stops_the_call_witness :
  kw_get "virtual_machines" machines_with_down =
    Some (VList ([VStr "vm1"] ++ VStr "down" :: [VStr "vm2"])) /\
  In (EvGetClient "compute" machines_with_down None)
     (trace (availability_set_create_or_update env_lookup_down
               testset testgroup machines_with_down)) /\
  Forall (lookup_answered env_lookup_down testgroup machines_with_down)
    [VStr "vm1"] /\
  lookup_breaks env_lookup_down testgroup machines_with_down (VStr "down") =
    Some conflict /\
  returned (availability_set_create_or_update env_lookup_down
              testset testgroup machines_with_down) = Raise conflict /\
  filter is_virtual_machine_get
    (trace (availability_set_create_or_update env_lookup_down
              testset testgroup machines_with_down)) =
    map (fun n =>
           EvVirtualMachineGet n testgroup machines_with_down
             (virtual_machine_get_answer env_lookup_down n testgroup
                machines_with_down))
      ([VStr "vm1"] ++ [VStr "down"]) /\
  filter is_create_object_model
    (trace (availability_set_create_or_update env_lookup_down
              testset testgroup machines_with_down)) = [] /\
  filter is_sdk_call
    (trace (availability_set_create_or_update env_lookup_down
              testset testgroup machines_with_down)) = [].
Proof.
  assert (In (EvGetClient "compute" machines_with_down None)
            (trace (availability_set_create_or_update env_lookup_down
                      testset testgroup machines_with_down))) as Hin
    by (simpl; auto).
  assert (Forall (lookup_answered env_lookup_down testgroup machines_with_down)
            [VStr "vm1"]) as Hall.
  { repeat constructor. eexists. split; [reflexivity | right; reflexivity]. }
  split; [reflexivity |]. split; [exact Hin |]. split; [exact Hall |].
  split; [reflexivity |].
  exact (broken_lookup_stops_the_call env_lookup_down testset testgroup
           machines_with_down machines_with_down [VStr "vm1"] [VStr "vm2"]
           (VStr "down") conflict eq_refl Hin Hall eq_refl).
Defined.

Lemma build_and_send_model_failure (E : Env) (name g : value)
  (compconn : ComputeManagementClient) (kw : kwargs) (ev : event) (e : exc) :
  In ev (trace (build_and_send E name g compconn kw)) ->
  model_failure ev = Some e ->
  filter is_sdk_call (trace (build_and_send E name g compconn kw)) = [] /\
  filter is_log_cloud_error (trace (build_and_send E name g compconn kw)) = [] /\
  (issubclass (exc_type e) TypeError = false ->
   returned (build_and_send E name g compconn kw) = Raise e).
Proof.
  unfold build_and_send, create_object_model, call, sdk, bind, try_except; simpl.
  outcomes; pick_event; intros [= <-]; simpl; repeat split;
    intros; try discriminate; reflexivity.
Qed.

(** X12.  When the object-model builder raises, the SDK's
    [create_or_update] is not called and nothing is logged; an exception
    of the builder that is not a TypeError leaves
    [availability_set_create_or_update]. *)
Theorem builder_failure_skips_the_sdk (E : Env) (name g : value) (kw : kwargs)
  (ev : event) (e : exc) :
  In ev (trace (availability_set_create_or_update E name g kw)) ->
  model_failure ev = Some e ->
  filter is_sdk_call (trace (availability_set_create_or_update E name g kw)) = [] /\
  filter is_log_cloud_error
    (trace (availability_set_create_or_update E name g kw)) = [] /\
  (issubclass (exc_type e) TypeError = false ->
   returned (availability_set_create_or_update E name g kw) = Raise e).
Proof.
  intros Hin Hf.
  destruct (create_or_update_split E name g kw)
    as [(kw1 & cc & kw2 & pre & _ & _ & Ht & Hv & Hp & _) | [Hp _]].
  - rewrite Ht in Hin |- *. rewrite Hv.
    apply in_app_or in Hin as [Hin | Hin].
    + apply Hp, preamble_quiet in Hin as (_ & _ & _ & Hq & _). congruence.
    + destruct (build_and_send_model_failure _ _ _ _ _ _ _ Hin Hf)
        as (Hs & Hl & Hr).
      rewrite !filter_app, Hs, Hl, !app_nil_r. repeat split.
      * apply filter_nothing. intros x Hx. now apply Hp, preamble_quiet in Hx.
      * apply filter_nothing. intros x Hx. now apply Hp, preamble_quiet in Hx.
      * exact Hr.
  - apply Hp, preamble_quiet in Hin as (_ & _ & _ & Hq & _). congruence.
Qed.

Lemma builder_failure_skips_the_sdk_witness :
  In (EvCreateObjectModel "compute" "AvailabilitySet" eastus (Raise bad_keyword))
     (trace (availability_set_create_or_update env_bad_keyword
               testset testgroup eastus)) /\
  filter is_sdk_call
    (trace (availability_set_create_or_update env_bad_keyword
              testset testgroup eastus)) = [] /\
  filter is_log_cloud_error
    (trace (availability_set_create_or_update env_bad_keyword
              testset testgroup eastus)) = [] /\
  (issubclass (exc_type bad_keyword) TypeError = false ->
   returned (availability_set_create_or_update env_bad_keyword
               testset testgroup eastus) = Raise bad_keyword).
Proof.
  assert (In (EvCreateObjectModel "compute" "AvailabilitySet" eastus
                (Raise bad_keyword))
            (trace (availability_set_create_or_update env_bad_keyword
                      testset testgroup eastus))) as Hin
    by (simpl; auto).
  split; [exact Hin |].
  exact (builder_failure_skips_the_sdk env_bad_keyword testset testgroup eastus
           _ bad_keyword Hin eq_refl).
Defined.

Lemma build_and_send_success (E : Env) (name g : value)
  (compconn : ComputeManagementClient) (kw : kwargs) (m av : sdk_model) :
  create_object_model_answer E "compute" "AvailabilitySet" kw = Return m ->
  AvailabilitySetsOperations.create_or_update (availability_sets compconn)
    g name m = Return av ->
  build_and_send E name g compconn kw =
    (Return (VDict (as_dict av)),
     [EvCreateObjectModel "compute" "AvailabilitySet" kw (Return m);
      EvSdk AS_create_or_update
        [("resource_group_name", g); ("availability_set_name", name);
         ("parameters", VDict (as_dict m))]
        None]).
Proof.
  intros Hm Hs.
  unfold build_and_send, create_object_model, call, sdk, bind, try_except; simpl.
  rewrite Hm. simpl. rewrite Hs. reflexivity.
Qed.

(** X13.  When the factory returned a client, the builder returned a request
    object and the SDK's [create_or_update] returns an availability set
    for that object, [availability_set_create_or_update] returns the
    [as_dict()] form of the set; the SDK method is called with the
    resource group, the name and the object, and nothing is logged. *)
Theorem created_set_returned (E : Env) (name g : value) (kw kw1 kw2 : kwargs)
  (compconn : ComputeManagementClient) (m av : sdk_model) :
  In (EvGetClient "compute" kw1 None)
     (trace (availability_set_create_or_update E name g kw)) ->
  get_client_answer E "compute" kw1 = Return compconn ->
  In (EvCreateObjectModel "compute" "AvailabilitySet" kw2 (Return m))
     (trace (availability_set_create_or_update E name g kw)) ->
  AvailabilitySetsOperations.create_or_update (availability_sets compconn)
    g name m = Return av ->
  returned (availability_set_create_or_update E name g kw) =
    Return (VDict (as_dict av)) /\
  filter is_sdk_call (trace (availability_set_create_or_update E name g kw)) =
    [EvSdk AS_create_or_update
       [("resource_group_name", g); ("availability_set_name", name);
        ("parameters", VDict (as_dict m))]
       None] /\
  filter is_log_cloud_error
    (trace (availability_set_create_or_update E name g kw)) = [].
Proof.
  intros Hacq Hc Hmod Hs.
  destruct (create_or_update_split E name g kw)
    as [(kw1' & cc & kw2' & pre & Hc' & _ & Ht & Hv & Hp & Ha) | [Hp _]].
  2:{ apply Hp in Hmod. discriminate. }
  rewrite Ht in Hacq, Hmod |- *. rewrite Hv.
  assert (kw1 = kw1') as <-.
  { apply in_app_or in Hacq as [H | H].
    - exact (Ha _ _ H eq_refl).
    - apply build_and_send_events in H as (_ & H & _). discriminate. }
  rewrite Hc in Hc'. injection Hc' as <-.
  assert (kw2' = kw2 /\
          create_object_model_answer E "compute" "AvailabilitySet" kw2 = Return m)
    as [-> Hm].
  { apply in_app_or in Hmod as [H | H]; [apply Hp in H; discriminate |].
    assert (In (EvCreateObjectModel "compute" "AvailabilitySet" kw2 (Return m))
              (filter is_create_object_model
                 (trace (build_and_send E name g compconn kw2')))) as Hf
      by (apply filter_In; split; [exact H | reflexivity]).
    rewrite build_and_send_models in Hf. destruct Hf as [Hf | []].
    injection Hf as -> Hf. split; [reflexivity | exact Hf]. }
  rewrite (build_and_send_success E name g compconn kw2 m av Hm Hs).
  cbn [returned trace fst snd]. rewrite !filter_app.
  rewrite (filter_nothing is_sdk_call pre),
          (filter_nothing is_log_cloud_error pre).
  - repeat split.
  - intros x Hx. now apply Hp, preamble_quiet in Hx.
  - intros x Hx. now apply Hp, preamble_quiet in Hx.
Qed.

Lemma created_set_returned_witness :
  In (EvGetClient "compute" eastus None)
     (trace (availability_set_create_or_update (env_with quiet_client)
               testset testgroup eastus)) /\
  get_client_answer (env_with quiet_client) "compute" eastus = Return quiet_client /\
  In (EvCreateObjectModel "compute" "AvailabilitySet" eastus
        (Return (kwargs_model eastus)))
     (trace (availability_set_create_or_update (env_with quiet_client)
               testset testgroup eastus)) /\
  AvailabilitySetsOperations.create_or_update (availability_sets quiet_client)
    testgroup testset (kwargs_model eastus) = Return (kwargs_model eastus) /\
  returned (availability_set_create_or_update (env_with quiet_client)
              testset testgroup eastus) =
    Return (VDict (as_dict (kwargs_model eastus))) /\
  filter is_sdk_call
    (trace (availability_set_create_or_update (env_with quiet_client)
              testset testgroup eastus)) =
    [EvSdk AS_create_or_update
       [("resource_group_name", testgroup); ("availability_set_name", testset);
        ("parameters", VDict (as_dict (kwargs_model eastus)))]
       None] /\
  filter is_log_cloud_error
    (trace (availability_set_create_or_update (env_with quiet_client)
              testset testgroup eastus)) = [].
Proof.
  assert (In (EvGetClient "compute" eastus None)
            (trace (availability_set_create_or_update (env_with quiet_client)
                      testset testgroup eastus))) as H1
    by (simpl; auto).
  assert (In (EvCreateObjectModel "compute" "AvailabilitySet" eastus
                (Return (kwargs_model eastus)))
            (trace (availability_set_create_or_update (env_with quiet_client)
                      testset testgroup eastus))) as H2
    by (simpl; auto).
  split; [exact H1 |]. split; [reflexivity |]. split; [exact H2 |].
  split; [reflexivity |].
  exact (created_set_returned (env_with quiet_client) testset testgroup
           eastus eastus eastus quiet_client (kwargs_model eastus)
           (kwargs_model eastus) H1 eq_refl H2 eq_refl).
Defined.

(** ** Edges of the listings *)

(** X14.  A listing invents nothing: whatever the returned mapping holds
    under a key is an item of the flattened paged sequence whose "name" is
    that key. *)
Theorem listing_entries_are_items (E : Env) (c : module_call) (ev : event)
  (items : list dict) :
  is_listing c = true ->
  In ev (trace (invoke E c)) ->
  listed ev = Some items ->
  Forall (fun item => item_key item <> None) items ->
  exists d,
    returned (invoke E c) = Return (VDict d) /\
    forall h v,
      dict_lookup h d = Some v ->
      exists item, In item items /\ item_key item = Some h /\ v = VDict item.
Proof.
  intros Hc Hin Hl Hall.
  destruct (listing_keyed E c ev items Hc Hin Hl Hall) as (d & Hv & _ & Hlook).
  exists d. split; [exact Hv |]. intros h v. rewrite Hlook.
  unfold last_named.
  destruct (find (named h) (rev items)) as [item |] eqn:Hfind; [| discriminate].
  intros [= <-]. apply find_some in Hfind as [Hitem Hnamed].
  exists item. split; [now apply in_rev |]. split; [| reflexivity].
  unfold named in Hnamed. destruct (item_key item) as [h' |]; [| discriminate].
  apply hkey_eqb_eq in Hnamed. congruence.
Qed.

Lemma listing_entries_are_items_witness :
  is_listing (VirtualMachinesListAll []) = true /\
  In (EvPagedObjectToList VM_list_all (Return [web_eastus; db_eastus; web_westus]))
     (trace (invoke (env_with client_same_names) (VirtualMachinesListAll []))) /\
  Forall (fun item => item_key item <> None) [web_eastus; db_eastus; web_westus] /\
  exists d,
    returned (invoke (env_with client_same_names) (VirtualMachinesListAll [])) =
      Return (VDict d) /\
    forall h v,
      dict_lookup h d = Some v ->
      exists item,
        In item [web_eastus; db_eastus; web_westus] /\
        item_key item = Some h /\ v = VDict item.
Proof.
  assert (In (EvPagedObjectToList VM_list_all
                (Return [web_eastus; db_eastus; web_westus]))
            (trace (invoke (env_with client_same_names)
                      (VirtualMachinesListAll [])))) as Hin
    by (simpl; auto).
  assert (Forall (fun item => item_key item <> None)
            [web_eastus; db_eastus; web_westus]) as Hall
    by (repeat constructor; discriminate).
  split; [reflexivity |]. split; [exact Hin |]. split; [exact Hall |].
  exact (listing_entries_are_items (env_with client_same_names)
           (VirtualMachinesListAll []) _ _ eq_refl Hin eq_refl Hall).
Defined.

Lemma key_by_name_break (pre post : list dict) (item : dict) (acc : dict) :
  Forall (fun item => item_key item <> None) pre ->
  item_key item = None ->
  exists e,
    key_by_name (pre ++ item :: post) acc = Raise e /\
    (dict_mem "name" item = false -> e = mkExc KeyError "'name'") /\
    (dict_mem "name" item = true -> exc_type e = TypeError).
Proof.
  intros Hall Hitem. revert acc.
  induction Hall as [| p pre Hp _ IH]; intros acc.
  - cbn [app key_by_name]. unfold item_key in Hitem. unfold getitem, setitem, dict_mem.
    destruct (dict_lookup (HStr "name") item) as [nm |].
    + rewrite Hitem. eexists. split; [reflexivity |].
      split; [discriminate | reflexivity].
    + eexists. split; [reflexivity |]. split; [reflexivity | discriminate].
  - cbn [app key_by_name]. unfold item_key in Hp. unfold getitem, setitem.
    destruct (dict_lookup (HStr "name") p) as [nm |]; [| easy].
    destruct (py_hash nm); [apply IH | easy].
Qed.

Lemma listing_subscript_failure (E : Env) (c : module_call) (ev : event)
  (items : list dict) (e : exc) :
  is_listing c = true ->
  In ev (trace (invoke E c)) ->
  listed ev = Some items ->
  key_by_name items [] = Raise e ->
  returned (invoke E c) = Raise e /\
  filter is_log_cloud_error (trace (invoke E c)) = [].
Proof.
  intros Hc Hin Hl Hk.
  pose proof (key_by_name_raises items [] e Hk) as Hcls.
  revert Hin Hl Hk. destruct c; try discriminate.
  all: unfold_module; simpl; outcomes_eq; pick_event; intros [= <-];
    match goal with
    | H : key_by_name ?l [] = _ |- key_by_name ?l [] = _ -> _ =>
        rewrite H; intros [= <-]
    end;
    simpl in Hcls; destruct Hcls; try discriminate; split; reflexivity.
Qed.

(** X15.  When an item of the flattened paged sequence has no "name", or a
    name that cannot be a key, and every item before it has a usable one,
    the exception of the subscript leaves the listing function, KeyError
    for a missing name and TypeError for an unhashable one; nothing is
    logged and no mapping is returned. *)
Theorem listing_item_without_name (E : Env) (c : module_call) (ev : event)
  (pre post : list dict) (item : dict) :
  is_listing c = true ->
  In ev (trace (invoke E c)) ->
  listed ev = Some (pre ++ item :: post) ->
  Forall (fun item => item_key item <> None) pre ->
  item_key item = None ->
  exists e,
    returned (invoke E c) = Raise e /\
    (dict_mem "name" item = false -> e = mkExc KeyError "'name'") /\
    (dict_mem "name" item = true -> exc_type e = TypeError) /\
    filter is_log_cloud_error (trace (invoke E c)) = [].
Proof.
  intros Hc Hin Hl Hall Hitem.
  destruct (key_by_name_break pre post item [] Hall Hitem) as (e & Hk & H1 & H2).
  destruct (listing_subscript_failure E c ev _ e Hc Hin Hl Hk) as [Hr Hlog].
  exists e. repeat split; assumption.
Qed.

Lemma listing_item_without_name_witness :
  is_listing (AvailabilitySetsList testgroup []) = true /\
  In (EvPagedObjectToList AS_list (Return ([web_eastus] ++ nameless :: [])))
     (trace (invoke (env_with client_nameless_item)
               (AvailabilitySetsList testgroup []))) /\
  Forall (fun item => item_key item <> None) [web_eastus] /\
  item_key nameless = None /\
  exists e,
    returned (invoke (env_with client_nameless_item)
                (AvailabilitySetsList testgroup [])) = Raise e /\
    (dict_mem "name" nameless = false -> e = mkExc KeyError "'name'") /\
    (dict_mem "name" nameless = true -> exc_type e = TypeError) /\
    filter is_log_cloud_error
      (trace (invoke (env_with client_nameless_item)
                (AvailabilitySetsList testgroup []))) = [].
Proof.
  assert (In (EvPagedObjectToList AS_list (Return ([web_eastus] ++ nameless :: [])))
            (trace (invoke (env_with client_nameless_item)
                      (AvailabilitySetsList testgroup [])))) as Hin
    by (simpl; auto).
  assert (Forall (fun item => item_key item <> None) [web_eastus]) as Hall
    by (repeat constructor; discriminate).
  split; [reflexivity |]. split; [exact Hin |]. split; [exact Hall |].
  split; [reflexivity |].
  exact (listing_item_without_name (env_with client_nameless_item)
           (AvailabilitySetsList testgroup []) _ [web_eastus] [] nameless
           eq_refl Hin eq_refl Hall eq_refl).
Defined.

(** X16.  Every function other than [availability_set_create_or_update]
    hands the shared logger the keyword arguments it was called with, as
    they came. *)
Theorem logger_gets_the_call_kwargs (E : Env) (c : module_call) (ev : event)
  (kw : kwargs) :
  is_create_or_update c = false ->
  In ev (trace (invoke E c)) ->
  logged_kwargs ev = Some kw ->
  kw = call_kwargs c.
Proof.
  destruct c; try discriminate; intros _.
  all: unfold_module; simpl; outcomes; pick_event; intros [= <-]; reflexivity.
Qed.

Lemma logger_gets_the_call_kwargs_witness :
  is_create_or_update (AvailabilitySetGet testset testgroup eastus) = false /\
  In (EvLogCloudError "compute" "(ResourceNotFound) testset" eastus)
     (trace (invoke (env_with client_get_missing)
               (AvailabilitySetGet testset testgroup eastus))) /\
  eastus = call_kwargs (AvailabilitySetGet testset testgroup eastus).
Proof.
  assert (In (EvLogCloudError "compute" "(ResourceNotFound) testset" eastus)
            (trace (invoke (env_with client_get_missing)
                      (AvailabilitySetGet testset testgroup eastus)))) as Hin
    by (simpl; auto).
  split; [reflexivity |]. split; [exact Hin |].
  exact (logger_gets_the_call_kwargs (env_with client_get_missing)
           (AvailabilitySetGet testset testgroup eastus) _ eastus
           eq_refl Hin eq_refl).
Defined.

(** ** Loading *)

Lemma virtual_name_when_libraries (HAS_LIBS : bool) :
  __virtual__ HAS_LIBS = inr "azurerm_compute" <-> HAS_LIBS = true.
Proof. destruct HAS_LIBS; simpl; split; try discriminate; reflexivity. Qed.
